(** * OpenBB charting backend and financial-ratios query schema

    A shallow embedding of

    - [openbb_core/provider/standard_models/financial_ratios.py]
      (the two field validators of [FinancialRatiosQueryParams]), and
    - [openbb_charting/core/backend.py]
      (the [Backend] singleton, its dispatch methods [send_figure],
      [send_table], [send_url], the health check [check_backend], the
      telemetry record of [get_json_update] and the export watcher
      [process_image]).

    Python objects become records, dicts become finite maps with string
    keys, methods become functions in a state-and-exception monad over
    the instance they mutate, and the binary64 arithmetic of
    [send_table] is carried out with the primitive floats of the
    kernel. *)

From Stdlib Require Import ZArith QArith Qminmax Qround Lia List Bool Ascii String.
From Stdlib Require Import Floats.PrimFloat Floats.SpecFloat Floats.FloatOps.
From Stdlib Require Import Numbers.Cyclic.Int63.Uint63.
From stdpp Require Import gmap strings list.
From Equations Require Import Equations.

Import ListNotations.
Local Open Scope string_scope.

(* ===================================================================== *)
(** * Python strings *)
(* ===================================================================== *)

(** Strings are sequences of characters; the case conversions below are
    [str.upper] and [str.lower] on the ASCII letters, every other
    character being left as it is. *)
Module PyStr.

Definition is_lower (c : ascii) : bool :=
  let n := nat_of_ascii c in (97 <=? n)%nat && (n <=? 122)%nat.






(** Truthiness of a string: [bool(s)] is [False] exactly for the empty string. *)
Definition truthy (s : string) : bool :=
  match s with EmptyString => false | String _ _ => true end.

(** Every character of [s] satisfies [p]. *)
Fixpoint all_chars (p : ascii -> bool) (s : string) : bool :=
  match s with
  | EmptyString => true
  | String c s' => p c && all_chars p s'
  end.

End PyStr.

Module FinancialRatios.






End FinancialRatios.

(* ===================================================================== *)
(** * The two regular expressions of the title clean-up *)
(* ===================================================================== *)

(** [re.sub(pattern, repl, s)] with an empty replacement removes the leftmost, non-overlapping
    matches of the pattern.  Both patterns of [backend.py] start with a
    fixed character and cannot match the empty string, so a pattern is
    given by the length of its match at the head of a string. *)
Module Re.

Definition lt_sign : ascii := ascii_of_nat 60.  (* < *)
Definition gt_sign : ascii := ascii_of_nat 62.  (* > *)
Definition lbracket : ascii := ascii_of_nat 91. (* [ *)
Definition rbracket : ascii := ascii_of_nat 93. (* ] *)
Definition slash : ascii := ascii_of_nat 47.    (* / *)

(** Position of the first occurrence of [x] in [s]. *)
Fixpoint index_of (x : ascii) (s : string) : option nat :=
  match s with
  | EmptyString => None
  | String c s' =>
      if Ascii.eqb c x then Some 0%nat
      else match index_of x s' with
           | Some i => Some (S i)
           | None => None
           end
  end.

(** Number of leading characters of [s] that satisfy [p]. *)
Fixpoint span_len (p : ascii -> bool) (s : string) : nat :=
  match s with
  | EmptyString => 0
  | String c s' => if p c then S (span_len p s') else 0
  end.

(** [<[^>]*>] at the head of [s]: a [<], then everything up to and
    including the first [>] that follows.  The negated class takes any
    character but [>], a [<] and a line break included. *)
Definition match_tag (s : string) : option nat :=
  match s with
  | EmptyString => None
  | String c s' =>
      if Ascii.eqb c lt_sign then
        match index_of gt_sign s' with
        | Some j => Some (S (S j))
        | None => None
        end
      else None
  end.

(** [\[\/?[a-z]+\]] at the head of [s]: a bracket, an optional slash,
    one or more lower-case letters, a closing bracket.  Neither the
    slash nor the closing bracket is a letter, so the greedy choices
    are the only ones that can succeed. *)
Definition match_bracket_tag (s : string) : option nat :=
  match s with
  | EmptyString => None
  | String c s1 =>
      if Ascii.eqb c lbracket then
        let '(k, s2) :=
          match s1 with
          | String d r => if Ascii.eqb d slash then (1%nat, r) else (0%nat, s1)
          | EmptyString => (0%nat, s1)
          end in
        let n := span_len PyStr.is_lower s2 in
        match n, String.get n s2 with
        | S _, Some e => if Ascii.eqb e rbracket then Some (S (S (k + n))) else None
        | _, _ => None
        end
      else None
  end.

(** The scan of the substitution: [skip] characters of a match are
    still to be dropped; otherwise a match at the current position is
    dropped whole, and a character that starts no match is kept. *)
Fixpoint sub_scan (match_at : string -> option nat) (s : string) (skip : nat)
  : string :=
  match s with
  | EmptyString => EmptyString
  | String c s' =>
      match skip with
      | S k => sub_scan match_at s' k
      | O =>
          match match_at s with
          | Some (S n) => sub_scan match_at s' n
          | _ => String c (sub_scan match_at s' 0)
          end
      end
  end.

Definition sub_empty (match_at : string -> option nat) (s : string) : string :=
  sub_scan match_at s 0.

(** [re.sub] of the pattern [<[^>]*>] by the empty string. *)
Definition strip_tags (s : string) : string := sub_empty match_tag s.

(** [re.sub] of the pattern [\[\/?[a-z]+\]] by the empty string. *)
Definition strip_bracket_tags (s : string) : string :=
  sub_empty match_bracket_tag s.

(** [s] holds a [<] with a [>] somewhere after it, that is, the
    pattern [<[^>]*>] matches somewhere in [s]. *)
Fixpoint has_tag (s : string) : bool :=
  match s with
  | EmptyString => false
  | String c s' =>
      (Ascii.eqb c lt_sign && match index_of gt_sign s' with Some _ => true | None => false end)
      || has_tag s'
  end.

End Re.


(* ===================================================================== *)
(** * Python values, exceptions and the method monad *)
(* ===================================================================== *)

Module Py.

(** The values that travel in the outgoing messages.  [VJson v] is the
    text [json.dumps(v)]. *)
#[warnings="-register-all"]
Inductive Value :=
| VNone
| VBool (b : bool)
| VInt (z : Z)
| VStr (s : string)
| VPath (p : string)
| VList (l : list Value)
| VDict (d : gmap string Value)
| VJson (v : Value).

Inductive Exception :=
| FileNotFoundError
| AttributeError (attr : string)
| ValueError (msg : string)
| OverflowError
| CalledProcessError (status : Z)
| ExternalError (msg : string).

Inductive Outcome (A : Type) :=
| Ok (a : A)
| Raise (e : Exception).

Arguments Ok {A} a.
Arguments Raise {A} e.

(** [x or d] for an optional integer: [None] and [0] are falsy. *)
Definition or_int (x : option Z) (d : Z) : Z :=
  match x with
  | Some v => if (v =? 0)%Z then d else v
  | None => d
  end.

(** Truthiness of an optional string: [None] and the empty string are
    falsy. *)
Definition truthy_opt (x : option string) : bool :=
  match x with
  | Some s => PyStr.truthy s
  | None => false
  end.

(** [x or d] for an optional string. *)
Definition or_str (x : option string) (d : string) : string :=
  match x with
  | Some s => if PyStr.truthy s then s else d
  | None => d
  end.

Definition of_opt_str (x : option string) : Value :=
  match x with
  | Some s => VStr s
  | None => VNone
  end.

Definition of_opt_path (x : option string) : Value :=
  match x with
  | Some s => VPath s
  | None => VNone
  end.

(** [d.update(u)]: the entries of [u] are written over those of [d]. *)
Definition update (d u : gmap string Value) : gmap string Value := u ∪ d.

(** Descent into nested dicts along a path of keys. *)
Fixpoint get_path (path : list string) (v : Value) : option Value :=
  match path with
  | [] => Some v
  | k :: path' =>
      match v with
      | VDict d =>
          match d !! k with
          | Some v' => get_path path' v'
          | None => None
          end
      | _ => None
      end
  end.

End Py.


(* ===================================================================== *)
(** * Python numbers: integers and binary64 floats *)
(* ===================================================================== *)

Module PyNum.

Import Py.

Inductive num :=
| Int (z : Z)
| Float (f : float).

(** Conversion of an integer operand to a float, as in [n * 0.2]: exact
    below 2^53 and rounded to nearest up to 2^63, the range of the
    lengths and sums that [send_table] computes. *)
Definition of_int (z : Z) : float := PrimFloat.of_uint63 (Uint63.of_Z z).

(** The two float constants of [send_table], [0.2] and [9.7], as the
    binary64 numbers that Python reads them as. *)
Definition c_0_2 : float := 0x1.999999999999ap-3%float.
Definition c_9_7 : float := 0x1.3666666666666p+3%float.

(** The integer [m * 2^e] (rounded down), the sign applied first. *)
Definition scaled (neg : bool) (m : positive) (e : Z) : Z :=
  let n := if neg then Z.neg m else Z.pos m in
  if (0 <=? e)%Z then Z.shiftl n e else Z.shiftr n (- e).

(** Whether [m * 2^e] is a whole number. *)
Definition integral (m : positive) (e : Z) : bool :=
  if (0 <=? e)%Z then true
  else (Z.shiftl (Z.shiftr (Z.pos m) (- e)) (- e) =? Z.pos m)%Z.

(** Largest integer below or equal to a finite float. *)
Definition float_floor (f : float) : option Z :=
  match Prim2SF f with
  | S754_zero _ => Some 0%Z
  | S754_finite s m e => Some (scaled s m e)
  | _ => None
  end.

(** [int(f)]: the float truncated toward zero; an infinity and a NaN
    have no integer. *)
Definition float_trunc (f : float) : Outcome Z :=
  match Prim2SF f with
  | S754_zero _ => Ok 0%Z
  | S754_finite s m e =>
      Ok (if s then (- scaled false m e)%Z else scaled false m e)
  | S754_infinity _ => Raise OverflowError
  | S754_nan => Raise (ValueError "cannot convert float NaN to integer")
  end.

(** [a < b] for an integer and a float, compared exactly. *)
Definition int_lt_float (a : Z) (f : float) : bool :=
  match Prim2SF f with
  | S754_zero _ => (a <? 0)%Z
  | S754_finite s m e =>
      let fl := scaled s m e in
      (a <? fl)%Z || ((a =? fl)%Z && negb (integral m e))
  | S754_infinity neg => negb neg
  | S754_nan => false
  end.

Definition float_lt_int (f : float) (b : Z) : bool :=
  match Prim2SF f with
  | S754_zero _ => (0 <? b)%Z
  | S754_finite s m e => (scaled s m e <? b)%Z
  | S754_infinity neg => neg
  | S754_nan => false
  end.

Definition lt (a b : num) : bool :=
  match a, b with
  | Int x, Int y => (x <? y)%Z
  | Float x, Float y => PrimFloat.ltb x y
  | Int x, Float y => int_lt_float x y
  | Float x, Int y => float_lt_int x y
  end.

(** [min(a, b)] and [max(a, b)] of two arguments: the first one is kept
    unless the second is strictly smaller (larger). *)
Definition py_min (a b : num) : num := if lt b a then b else a.
Definition py_max (a b : num) : num := if lt a b then b else a.

(** [int(x)]. *)
Definition py_int (x : num) : Outcome Z :=
  match x with
  | Int z => Ok z
  | Float f => float_trunc f
  end.

(** [a + b] and [a * b] where the right operand is a float. *)
Definition add_float (a : Z) (b : float) : float := PrimFloat.add (of_int a) b.
Definition mul_float (a : Z) (b : float) : float := PrimFloat.mul (of_int a) b.

End PyNum.
(* ===================================================================== *)
(** * The charting backend *)
(* ===================================================================== *)

Module Charting.

Import Py.

(** ** Versions *)

(** A version as [packaging.version.parse] reads it: the text and its
    release segment.  PyWry publishes final releases only, so the
    epoch, pre-, post- and development segments are left out. *)
Record Version := {
  vtext : string;
  release : list nat
}.

(** Comparison of two release segments; missing trailing components
    count as zero. *)
Fixpoint release_cmp (a b : list nat) : comparison :=
  match a, b with
  | [], _ => if forallb (Nat.eqb 0) b then Eq else Lt
  | _, [] => if forallb (Nat.eqb 0) a then Eq else Gt
  | x :: a', y :: b' =>
      match Nat.compare x y with
      | Eq => release_cmp a' b'
      | c => c
      end
  end.

Definition version_cmp (v w : Version) : comparison :=
  release_cmp (release v) (release w).

Definition version_lt (v w : Version) : bool :=
  match version_cmp v w with Lt => true | _ => false end.

Definition version_gt (v w : Version) : bool :=
  match version_cmp v w with Gt => true | _ => false end.

Definition version_ge (v w : Version) : bool := negb (version_lt v w).

Definition v0_4_8 : Version := {| vtext := "0.4.8"; release := [0; 4; 8]%nat |}.
Definition v0_5_12 : Version := {| vtext := "0.5.12"; release := [0; 5; 12]%nat |}.

(** ** Settings, figures, tables *)

Record ChartingSettings := {
  plot_pywry_width : option Z;
  plot_pywry_height : option Z;
  chart_style : string;
  log_collect : bool;
  user_uuid : option string;
  user_email : option string;
  app_id : string;
  version : string;
  python_version : string;
  plot_open_export : bool;
  user_exports_directory : string
}.

(** A Plotly figure, as far as [send_figure] touches it: the title text
    and the height of the layout; the traces and the other layout
    properties are carried along as they are.  The height is a number,
    as [fig.layout.height += 69] needs it to be. *)
Record Figure := {
  data : Value;
  layout_title_text : option string;
  layout_height : Z;
  layout_other : gmap string Value
}.

Definition layout_to_json (fig : Figure) : gmap string Value :=
  let l := <["height" := VInt (layout_height fig)]> (layout_other fig) in
  match layout_title_text fig with
  | Some t => <["title" := VDict {["text" := VStr t]}]> l
  | None => l
  end.

(** [json.loads(fig.to_json())] *)
Definition to_json (fig : Figure) : gmap string Value :=
  <["layout" := VDict (layout_to_json fig)]> {["data" := data fig]}.

(** A column of a data frame: its label and the cells as
    [astype(str)] renders them. *)
Record Column := {
  col_name : string;
  col_values : list string
}.

(** A data frame: the columns in order, and the dict that
    [to_json(orient="split", date_format="iso")] yields for it. *)
Record DataFrame := {
  columns : list Column;
  split_json : gmap string Value
}.

Definition strlen (s : string) : Z := Z.of_nat (String.length s).

(** [df_table[col]] is a Series when the label [col] occurs once among
    the columns; with a repeated label it is a DataFrame, which has
    neither a [name] nor a [dtype]. *)
Definition is_series (df : DataFrame) (col : Column) : bool :=
  (List.length (List.filter (fun c => String.eqb (col_name c) (col_name col))
                            (columns df)) =? 1)%nat.

(** [series.astype(str).str.len().max()]: [None] stands for the NaN of
    a column without rows. *)
Definition str_len_max (col : Column) : option Z :=
  match col_values col with
  | [] => None
  | v :: vs => Some (List.fold_left Z.max (List.map strlen vs) (strlen v))
  end.

(** [max(len(str(name)), m)]: the first argument stays unless the
    second is larger, and a NaN is larger than nothing. *)
Definition column_width (col : Column) : Z :=
  match str_len_max col with
  | Some m => Z.max (strlen (col_name col)) m
  | None => strlen (col_name col)
  end.

(** [max(l)] and [min(l)] of a non-empty list of integers, [sum(l)]. *)
Definition list_max (x : Z) (l : list Z) : Z := List.fold_left Z.max l x.
Definition list_min (x : Z) (l : list Z) : Z := List.fold_left Z.min l x.
Definition list_sum (l : list Z) : Z := List.fold_left Z.add l 0%Z.

(** The first list comprehension of [send_table]. *)
Definition columnwidth (df : DataFrame) : list Z :=
  List.map column_width (List.filter (is_series df) (columns df)).

(** [int(x + spread * 0.2)]. *)
Definition inflate (spread x : Z) : Outcome Z :=
  PyNum.float_trunc (PyNum.add_float x (PyNum.mul_float spread PyNum.c_0_2)).

Definition spread_of (l : list Z) : Z :=
  match l with
  | [] => 0%Z
  | x :: l' => (list_max x l' - list_min x l')%Z
  end.

(** The results of a list of computations, up to the first that
    raises. *)
Fixpoint sequence {A} (l : list (Outcome A)) : Outcome (list A) :=
  match l with
  | [] => Ok []
  | Ok x :: l' =>
      match sequence l' with
      | Ok r => Ok (x :: r)
      | Raise e => Raise e
      end
  | Raise e :: _ => Raise e
  end.

(** The second list comprehension of [send_table]. *)
Definition inflated (l : list Z) : Outcome (list Z) :=
  sequence (List.map (inflate (spread_of l)) l).

(** [max(int(min(sum(columnwidth) * 9.7, WIDTH + 100)), 800)] *)
Definition window_width (l : list Z) (WIDTH : Z) : Outcome Z :=
  match PyNum.py_int (PyNum.py_min
                        (PyNum.Float (PyNum.mul_float (list_sum l) PyNum.c_9_7))
                        (PyNum.Int (WIDTH + 100)%Z)) with
  | Ok w => Ok (Z.max w 800)
  | Raise e => Raise e
  end.

(** The width that [send_table] gives the window of a table. *)
Definition table_width (df : DataFrame) (WIDTH : Z) : Outcome Z :=
  match inflated (columnwidth df) with
  | Ok l => window_width l WIDTH
  | Raise e => Raise e
  end.

(** ** The instance and what surrounds it *)

Record Backend := {
  charting_settings : ChartingSettings;
  daemon : bool;
  max_retries : Z;
  proc_name : option string;
  plotly_html : string;
  table_html : string;
  isatty : bool;
  WIDTH : Z;
  HEIGHT : Z;
  logged_in : bool;
  outgoing : list (gmap string Value);
  init_engine : list (gmap string Value)
}.

(** What the process reads from outside: the file system, the
    interpreter and PyWry itself. *)
Record Env := {
  plots_core_path : string;
  path_exists : string -> bool;
  resolve : string -> string;
  jupyter_notebook : bool;
  stdin_isatty : bool;
  process_name : string;
  platform : string;
  (** [from pywry import __version__]; [None] is the [ImportError]. *)
  pywry_import : option Version;
  (** How PyWry's own [check_backend] ends. *)
  probe : Outcome Value;
  (** Exit status of the command that opens an exported image. *)
  opener_status : Z
}.

Definition path_join (dir name : string) : string := dir ++ "/" ++ name.

(** The state a method runs in: the instance, the class attribute
    [PyWry.__version__] (absent when PyWry does not declare it) and the
    warnings issued so far. *)
Record State := {
  self : Backend;
  PyWry_version : option Version;
  warned : list string
}.

Definition M (A : Type) : Type := State -> Outcome A * State.

Definition ret {A} (a : A) : M A := fun st => (Ok a, st).

Definition bind {A B} (m : M A) (k : A -> M B) : M B :=
  fun st =>
    match m st with
    | (Ok a, st') => k a st'
    | (Raise e, st') => (Raise e, st')
    end.

Definition raise {A} (e : Exception) : M A := fun st => (Raise e, st).

Definition get_self : M Backend := fun st => (Ok (self st), st).

Definition set_self (f : Backend -> Backend) : M unit :=
  fun st =>
    (Ok tt, {| self := f (self st);
               PyWry_version := PyWry_version st;
               warned := warned st |}).

(** [warnings.warn(message)] *)
Definition warn (message : string) : M unit :=
  fun st =>
    (Ok tt, {| self := self st;
               PyWry_version := PyWry_version st;
               warned := (warned st ++ [message])%list |}).

Definition set_PyWry_version (v : Version) : M unit :=
  fun st =>
    (Ok tt, {| self := self st;
               PyWry_version := Some v;
               warned := warned st |}).

(** [try: m except Exception: handler] *)
Definition try_except {A} (m : M A) (handler : Exception -> M A) : M A :=
  fun st =>
    match m st with
    | (Ok a, st') => (Ok a, st')
    | (Raise e, st') => handler e st'
    end.

Declare Scope py_scope.
Delimit Scope py_scope with py.
Notation "x <- m ;; k" := (bind m (fun x => k))
  (at level 100, m at next level, right associativity) : py_scope.
Notation "m ;; k" := (bind m (fun _ => k))
  (at level 100, right associativity) : py_scope.
Local Open Scope py_scope.

(** Field updates of the instance. *)
Definition with_max_retries (n : Z) (b : Backend) : Backend :=
  {| charting_settings := charting_settings b; daemon := daemon b;
     max_retries := n; proc_name := proc_name b;
     plotly_html := plotly_html b; table_html := table_html b;
     isatty := isatty b; WIDTH := WIDTH b; HEIGHT := HEIGHT b;
     logged_in := logged_in b; outgoing := outgoing b;
     init_engine := init_engine b |}.

Definition with_dimensions (w h : Z) (b : Backend) : Backend :=
  {| charting_settings := charting_settings b; daemon := daemon b;
     max_retries := max_retries b; proc_name := proc_name b;
     plotly_html := plotly_html b; table_html := table_html b;
     isatty := isatty b; WIDTH := w; HEIGHT := h;
     logged_in := logged_in b; outgoing := outgoing b;
     init_engine := init_engine b |}.

Definition with_logged_in (v : bool) (b : Backend) : Backend :=
  {| charting_settings := charting_settings b; daemon := daemon b;
     max_retries := max_retries b; proc_name := proc_name b;
     plotly_html := plotly_html b; table_html := table_html b;
     isatty := isatty b; WIDTH := WIDTH b; HEIGHT := HEIGHT b;
     logged_in := v; outgoing := outgoing b;
     init_engine := init_engine b |}.

Definition with_queues (out eng : list (gmap string Value)) (b : Backend)
  : Backend :=
  {| charting_settings := charting_settings b; daemon := daemon b;
     max_retries := max_retries b; proc_name := proc_name b;
     plotly_html := plotly_html b; table_html := table_html b;
     isatty := isatty b; WIDTH := WIDTH b; HEIGHT := HEIGHT b;
     logged_in := logged_in b; outgoing := out;
     init_engine := eng |}.

(** ** [Backend.__init__] *)

(** The body of [__init__].  The call of [super().__init__] is
    PyWry's: it takes the keyword arguments and starts with empty
    queues. *)
Definition Backend_init (env : Env) (PyWry_v : option Version)
    (settings : ChartingSettings) (daemon_ : bool) (max_retries_ : Z)
    (proc_name_ : string) : Backend :=
  let has_version := match PyWry_v with Some _ => true | None => false end in
  let named :=
    has_version
    && match PyWry_v with
       | Some v => version_ge v v0_4_8
       | None => false
       end in
  let tty :=
    negb (jupyter_notebook env) && stdin_isatty env
    && String.eqb (process_name env) "MainProcess" in
  let dummy :=
    has_version
    && match PyWry_v with
       | Some v => String.eqb (vtext v) "0.0.0"
       | None => false
       end in
  {| charting_settings := settings;
     daemon := daemon_;
     max_retries := max_retries_;
     proc_name := if named then Some proc_name_ else None;
     plotly_html := env.(resolve) (path_join (plots_core_path env) "plotly.html");
     table_html := env.(resolve) (path_join (plots_core_path env) "table.html");
     isatty := if dummy then false else tty;
     WIDTH := 1400;
     HEIGHT := 762;
     logged_in := false;
     outgoing := [];
     init_engine := [] |}.

(** ** Methods *)

Definition set_window_dimensions : M unit :=
  b <- get_self ;;
  let width := or_int (plot_pywry_width (charting_settings b)) 1400 in
  let height := or_int (plot_pywry_height (charting_settings b)) 762 in
  set_self (with_dimensions width height).

Definition get_pending : M (list (gmap string Value)) :=
  b <- get_self ;;
  let pending := (outgoing b ++ init_engine b)%list in
  set_self (with_queues [] []) ;;
  ret pending.

Definition get_plotly_html (env : Env) : M string :=
  set_window_dimensions ;;
  b <- get_self ;;
  if path_exists env (plotly_html b) then ret (plotly_html b)
  else
    warn ("[bold red]plotly.html file not found, check the path:[/]"
          ++ "[green]" ++ path_join (plots_core_path env) "plotly.html" ++ "[/]") ;;
    set_self (with_max_retries 0) ;;
    raise FileNotFoundError.

Definition get_table_html (env : Env) : M string :=
  set_window_dimensions ;;
  b <- get_self ;;
  if path_exists env (table_html b) then ret (table_html b)
  else
    warn ("[bold red]table.html file not found, check the path:[/]"
          ++ "[green]" ++ path_join (plots_core_path env) "table.html" ++ "[/]") ;;
    set_self (with_max_retries 0) ;;
    raise FileNotFoundError.

Definition icon_path (env : Env) : string :=
  path_join (path_join (plots_core_path env) "assets") "Terminal_icon.png".

Definition get_window_icon (env : Env) : M (option string) :=
  if path_exists env (icon_path env) then ret (Some (icon_path env))
  else ret None.

(** [self.__version__]: the class attribute of PyWry. *)
Definition dunder_version : M Version :=
  fun st =>
    match PyWry_version st with
    | Some v => (Ok v, st)
    | None => (Raise (AttributeError "__version__"), st)
    end.

(** The dict that [get_json_update] returns. *)
Definition json_update (cs : ChartingSettings) (posthog : gmap string Value)
    (theme cmd_loc : option string) (pywry_version : Version)
  : gmap string Value :=
  <["theme" := VStr (or_str theme (chart_style cs))]>
  (<["log_id" := VStr (app_id cs)]>
  (<["pywry_version" := VStr (vtext pywry_version)]>
  (<["platform_version" := VStr (version cs)]>
  (<["python_version" := VStr (python_version cs)]>
  (<["posthog" := VDict posthog]>
  {["command_location" := of_opt_str cmd_loc]}))))).

(** The condition under which the telemetry record names the user. *)
Definition identifies (b : Backend) : bool :=
  log_collect (charting_settings b)
  && truthy_opt (user_uuid (charting_settings b))
  && negb (logged_in b).

(** The telemetry record, with or without the identity of the user. *)
Definition posthog_record (cs : ChartingSettings) (identity : bool)
  : gmap string Value :=
  let posthog : gmap string Value :=
    {["collect_logs" := VBool (log_collect cs)]} in
  if identity
  then update posthog
         (<["user_id" := of_opt_str (user_uuid cs)]>
            {["email" := of_opt_str (user_email cs)]})
  else posthog.

Definition get_json_update (cmd_loc : option string) (theme : option string)
  : M (gmap string Value) :=
  b <- get_self ;;
  let cs := charting_settings b in
  posthog <-
    (if identifies b
     then
       set_self (with_logged_in true) ;;
       ret (posthog_record cs true)
     else ret (posthog_record cs false)) ;;
  pywry_version <- dunder_version ;;
  ret (json_update cs posthog theme cmd_loc pywry_version).

(** The dict that [get_kwargs] returns. *)
Definition kwargs_dict (title : option string) (icon : option string)
    (download_path : string) : gmap string Value :=
  <["title" := VStr ("OpenBB Platform"
                     ++ (if truthy_opt title
                         then " - " ++ or_str title EmptyString
                         else EmptyString))]>
  (<["icon" := of_opt_path icon]>
  {["download_path" := VStr download_path]}).

Definition get_kwargs (env : Env) (title : option string)
  : M (gmap string Value) :=
  icon <- get_window_icon env ;;
  b <- get_self ;;
  ret (kwargs_dict title icon (user_exports_directory (charting_settings b))).

Definition version_message : string :=
  "[bold red]PyWry version 0.5.12 or higher is required to use the "
  ++ "OpenBB Plots backend.[/]" ++ String (ascii_of_nat 10) EmptyString
  ++ "[yellow]Please update pywry with 'pip install pywry --upgrade'[/]".

(** PyWry's own [check_backend], as the environment decides it. *)
Definition super_check_backend (env : Env) : M Value :=
  fun st => (probe env, st).

(** The version comparison of [check_backend], once
    [PyWry.__version__] is known. *)
Definition check_version (env : Env) (v : Version) : M Value :=
  if version_lt v v0_5_12 then
    set_self (with_max_retries 0) ;;
    warn version_message ;;
    ret VNone
  else if version_gt v v0_5_12 then
    super_check_backend env
  else
    try_except (super_check_backend env) (fun _ => ret VNone).

Definition check_backend (env : Env) : M Value :=
  b <- get_self ;;
  if negb (isatty b) then ret VNone
  else
    fun st =>
      match PyWry_version st with
      | Some v => check_version env v st
      | None =>
          match pywry_import env with
          | None =>
              (set_self (with_max_retries 0) ;;
               warn version_message ;;
               ret VNone) st
          | Some pywry_version =>
              (set_PyWry_version pywry_version ;;
               check_version env pywry_version) st
          end
      end.


(** PyWry's [send_outgoing]: the message joins the queue of outgoing
    messages, the one that [get_pending] hands over. *)
Definition send_outgoing (msg : gmap string Value) : M unit :=
  b <- get_self ;;
  set_self (with_queues (outgoing b ++ [msg])%list (init_engine b)).

(** ** The export watcher *)

Inductive Event :=
| EvExists (after : nat) (found : bool)
| EvSleep (ms : nat)
| EvOpen (opener : string) (path : string).

(** The polling loop of [process_image].  [appears n] tells whether
    [img_path.exists()] holds once [n] sleeps have gone by; [checks] is
    the counter of the source and [tr] the events so far. *)
Equations poll (appears : nat -> bool) (checks : nat) (tr : list Event)
  : nat * list Event by wf (51 - checks)%nat lt :=
poll appears checks tr with appears checks := {
  | true => (checks, (tr ++ [EvExists checks true])%list)
  | false with le_lt_dec (S checks) 50 := {
      | left _ =>
          poll appears (S checks) (tr ++ [EvExists checks false; EvSleep 200])%list
      | right _ =>
          (S checks, (tr ++ [EvExists checks false; EvSleep 200])%list) } }.
Next Obligation. lia. Qed.

(** The events of [n] fruitless polls, the first after [k] sleeps. *)
Definition fruitless (k n : nat) : list Event :=
  flat_map (fun i => [EvExists i false; EvSleep 200]) (seq k n).

Definition is_sleep (e : Event) : bool :=
  match e with EvSleep _ => true | _ => false end.

(** What a run of [process_image] did. *)
Record Watched := {
  polls : nat;
  found : bool;
  trace : list Event
}.

Definition process_image (env : Env) (appears : nat -> bool)
    (export_image : string) : M Watched :=
  let img_path := resolve env export_image in
  let '(checks, tr) := poll appears 0 [] in
  let present := appears checks in
  let tr := (tr ++ [EvExists checks present])%list in
  b <- get_self ;;
  if present && plot_open_export (charting_settings b) then
    let opener :=
      if String.eqb (platform env) "win32" then "startfile"
      else if String.eqb (platform env) "darwin" then "open"
      else "xdg-open" in
    let done := {| polls := checks; found := present;
                   trace := (tr ++ [EvOpen opener export_image])%list |} in
    if String.eqb (platform env) "win32" then ret done
    else if (opener_status env =? 0)%Z then ret done
    else raise (CalledProcessError (opener_status env))
  else ret {| polls := checks; found := present; trace := tr |}.

(** ** The three dispatch operations *)

Definition default_title : string := "Interactive Chart".

(** The figure as [send_figure] leaves it: the title text without its
    tags, the height raised by 69. *)
Definition touch_figure (fig : Figure) : Figure :=
  {| data := data fig;
     layout_title_text :=
       Some (Re.strip_tags (or_str (layout_title_text fig) default_title));
     layout_height := (layout_height fig + 69)%Z;
     layout_other := layout_other fig |}.

(** The variable [json_data] of [send_figure]: the figure as JSON,
    updated with the dict of [get_json_update], the background colour
    written into its layout. *)
Definition figure_json_data (fig : Figure) (upd : gmap string Value)
    (paper_bg : string) : gmap string Value :=
  let json_data := update (to_json fig) upd in
  match json_data !! "layout" with
  | Some (VDict l) =>
      <["layout" := VDict (<["paper_bgcolor" := VStr paper_bg]> l)]> json_data
  | _ => json_data
  end.

(** The variable [outgoing] of [send_figure]. *)
Definition figure_outgoing (html : string) (json_data : gmap string Value)
    (export_image : option string) (kwargs : gmap string Value)
  : gmap string Value :=
  update (<["html" := VPath html]>
          (<["json_data" := VDict json_data]>
          {["export_image" := of_opt_path export_image]}))
         kwargs.

Definition paper_bg_of (cs : ChartingSettings) : string :=
  if String.eqb (chart_style cs) "dark"
  then "rgba(0,0,0,0)" else "rgba(255,255,255,0)".

(** [Path(export_image).resolve() if export_image else None] *)
Definition export_path (env : Env) (export_image : option string)
  : option string :=
  if truthy_opt export_image
  then Some (resolve env (or_str export_image EmptyString))
  else None.

(** The part of [send_figure] after the figure has been touched. *)
Definition dispatch_figure (env : Env) (appears : nat -> bool) (fig : Figure)
    (export_image : option string) (command_location : option string)
  : M unit :=
  b <- get_self ;;
  let paper_bg := paper_bg_of (charting_settings b) in
  let export_image := export_path env export_image in
  upd <- get_json_update command_location None ;;
  let json_data := figure_json_data fig upd paper_bg in
  html <- get_plotly_html env ;;
  kwargs <- get_kwargs env command_location ;;
  send_outgoing (figure_outgoing html json_data export_image kwargs) ;;
  match export_image with
  | Some p => _ <- process_image env appears p ;; ret tt
  | None => ret tt
  end.

(** [send_figure]: the outcome of the call, the figure object as the
    call leaves it, and the state. *)
Definition send_figure (env : Env) (appears : nat -> bool) (fig : Figure)
    (export_image : option string) (command_location : option string)
    (st : State) : Outcome unit * Figure * State :=
  match check_backend env st with
  | (Raise e, st1) => (Raise e, fig, st1)
  | (Ok _, st1) =>
      let fig' := touch_figure fig in
      let '(r, st2) :=
        dispatch_figure env appears fig' export_image command_location st1 in
      (r, fig', st2)
  end.

Definition clean_title (title : string) : string :=
  if PyStr.truthy title
  then Re.strip_bracket_tags (Re.strip_tags title)
  else title.

(** The variable [json_data] of [send_table], before [json.dumps]. *)
Definition table_json_data (df_table : DataFrame) (title source : string)
    (upd : gmap string Value) : gmap string Value :=
  update (split_json df_table)
    (update (<["title" := VStr title]>
               {["source" := VStr (if PyStr.truthy source
                                   then source else EmptyString)]})
            upd).

(** The variable [outgoing] of [send_table]. *)
Definition table_outgoing (html : string) (json_data : gmap string Value)
    (width height : Z) (kwargs : gmap string Value) : gmap string Value :=
  update (<["html" := VPath html]>
          (<["json_data" := VJson (VDict json_data)]>
          (<["width" := VInt width]>
          {["height" := VInt height]})))
         kwargs.

Definition send_table (env : Env) (df_table : DataFrame) (title : string)
    (source : string) (theme : option string)
    (command_location : option string) : M unit :=
  check_backend env ;;
  let title := clean_title title in
  b <- get_self ;;
  match table_width df_table (WIDTH b) with
  | Raise e => raise e
  | Ok width =>
      upd <- get_json_update command_location (Some (or_str theme "dark")) ;;
      let json_data := table_json_data df_table title source upd in
      html <- get_table_html env ;;
      b <- get_self ;;
      let height := (HEIGHT b - 100)%Z in
      kwargs <- get_kwargs env command_location ;;
      send_outgoing (table_outgoing html json_data width height kwargs)
  end.

Definition redirect_script (url : string) : string :=
  let nl := String (ascii_of_nat 10) EmptyString in
  let quote := String (ascii_of_nat 34) EmptyString in
  nl ++ "        <script>" ++ nl
  ++ "            window.location.replace(" ++ quote ++ url ++ quote ++ ");" ++ nl
  ++ "        </script>" ++ nl ++ "        ".

(** The variable [outgoing] of [send_url]. *)
Definition url_outgoing (script : string) (kwargs : gmap string Value)
    (width height : Z) : gmap string Value :=
  update (update {["html" := VStr script]} kwargs)
         (<["width" := VInt width]> {["height" := VInt height]}).

Definition send_url (env : Env) (url : string) (title : string)
    (width height : option Z) : M unit :=
  check_backend env ;;
  let script := redirect_script url in
  kwargs <- get_kwargs env (Some title) ;;
  b <- get_self ;;
  send_outgoing (url_outgoing script kwargs (or_int width (WIDTH b))
                              (or_int height (HEIGHT b))).

(** [close]: with [reset] the retry budget is restored; closing the
    connection itself is PyWry's. *)
Definition close (reset : bool) : M unit :=
  if reset then set_self (with_max_retries 50) else ret tt.

(** ** The process: the class attribute [instance] and the global [BACKEND] *)

(** The objects of class [Backend] that exist, by address; a cell holds
    [None] between [__new__] and [__init__]. *)
Record Process := {
  heap : list (option Backend);
  instance : option nat;
  BACKEND : option nat;
  PyWry__version__ : option Version;
  warnings_log : list string;
  atexit_hooks : list nat
}.

Definition start_of_process (PyWry_v : option Version) : Process :=
  {| heap := []; instance := None; BACKEND := None;
     PyWry__version__ := PyWry_v; warnings_log := []; atexit_hooks := [] |}.

(** [Backend.__new__]: the object is created only when the class has no
    [instance] attribute yet. *)
Definition Backend_new (p : Process) : nat * Process :=
  match instance p with
  | Some a => (a, p)
  | None =>
      let a := List.length (heap p) in
      (a, {| heap := (heap p ++ [None])%list; instance := Some a;
             BACKEND := BACKEND p; PyWry__version__ := PyWry__version__ p;
             warnings_log := warnings_log p; atexit_hooks := atexit_hooks p |})
  end.

(** [Backend(charting_settings, daemon, max_retries, proc_name)]:
    [__new__], then [__init__] on the object that [__new__] returned. *)
Definition Backend_call (env : Env) (settings : ChartingSettings)
    (daemon_ : bool) (max_retries_ : Z) (proc_name_ : string) (p : Process)
  : nat * Process :=
  let '(a, p1) := Backend_new p in
  let b := Backend_init env (PyWry__version__ p1) settings daemon_
                        max_retries_ proc_name_ in
  (a, {| heap := <[a := Some b]> (heap p1); instance := instance p1;
         BACKEND := BACKEND p1; PyWry__version__ := PyWry__version__ p1;
         warnings_log := warnings_log p1;
         atexit_hooks := (atexit_hooks p1 ++ [a])%list |}).

(** [create_backend(charting_settings)]; [default_settings] is
    [ChartingSettings()]. *)
Definition create_backend (env : Env) (default_settings : ChartingSettings)
    (settings : option ChartingSettings) (p : Process) : Process :=
  let settings := match settings with Some s => s | None => default_settings end in
  match BACKEND p with
  | None =>
      let '(a, p1) := Backend_call env settings true 30 "OpenBB Terminal" p in
      {| heap := heap p1; instance := instance p1; BACKEND := Some a;
         PyWry__version__ := PyWry__version__ p1;
         warnings_log := warnings_log p1; atexit_hooks := atexit_hooks p1 |}
  | Some _ => p
  end.

Definition get_backend (p : Process) : Outcome nat :=
  match BACKEND p with
  | None => Raise (ValueError "Backend not created")
  | Some a => Ok a
  end.

(** A method call on the object at address [a]. *)
Definition call {A} (a : nat) (m : M A) (p : Process)
  : option (Outcome A * Process) :=
  match heap p !! a with
  | Some (Some b) =>
      let '(r, st) := m {| self := b; PyWry_version := PyWry__version__ p;
                           warned := warnings_log p |} in
      Some (r, {| heap := <[a := Some (self st)]> (heap p);
                  instance := instance p; BACKEND := BACKEND p;
                  PyWry__version__ := PyWry_version st;
                  warnings_log := warned st;
                  atexit_hooks := atexit_hooks p |})
  | _ => None
  end.

(** Either no object of the class exists yet, or there is exactly one,
    at address 0, and both [cls.instance] and [BACKEND] (once it is
    set) point to it. *)
Definition singleton_inv (p : Process) : Prop :=
  match instance p with
  | None => heap p = [] /\ BACKEND p = None
  | Some a =>
      a = 0%nat /\ List.length (heap p) = 1%nat
      /\ (BACKEND p = None \/ BACKEND p = Some 0%nat)
  end.

(** The settings of the object at an address. *)
Definition settings_at (p : Process) (a : nat) : option ChartingSettings :=
  match heap p !! a with
  | Some (Some b) => Some (charting_settings b)
  | _ => None
  end.

(** ** The messages of the three dispatch operations *)

(** The state after [get_json_update]: the flag is raised when the
    record names the user. *)
Definition flagged (st : State) : State :=
  if identifies (self st)
  then {| self := with_logged_in true (self st);
          PyWry_version := PyWry_version st; warned := warned st |}
  else st.

Definition icon_of (env : Env) : option string :=
  if path_exists env (icon_path env) then Some (icon_path env) else None.

(** The message that [send_figure] enqueues for an instance [b] under
    PyWry version [v]. *)
Definition figure_message (env : Env) (b : Backend) (v : Version)
    (fig : Figure) (export_image command_location : option string)
  : gmap string Value :=
  let cs := charting_settings b in
  figure_outgoing (plotly_html b)
    (figure_json_data fig
       (json_update cs (posthog_record cs (identifies b)) None
                    command_location v)
       (paper_bg_of cs))
    (export_path env export_image)
    (kwargs_dict command_location (icon_of env) (user_exports_directory cs)).

(** The message that [send_table] enqueues, for a window width. *)
Definition table_message (env : Env) (b : Backend) (v : Version)
    (df_table : DataFrame) (title source : string)
    (theme command_location : option string) (width : Z)
  : gmap string Value :=
  let cs := charting_settings b in
  table_outgoing (table_html b)
    (table_json_data df_table (clean_title title) source
       (json_update cs (posthog_record cs (identifies b))
                    (Some (or_str theme "dark")) command_location v))
    width
    (or_int (plot_pywry_height cs) 762 - 100)%Z
    (kwargs_dict command_location (icon_of env) (user_exports_directory cs)).

(** The message that [send_url] enqueues. *)
Definition url_message (env : Env) (b : Backend) (url title : string)
    (width height : option Z) : gmap string Value :=
  url_outgoing (redirect_script url)
    (kwargs_dict (Some title) (icon_of env)
                 (user_exports_directory (charting_settings b)))
    (or_int width (WIDTH b)) (or_int height (HEIGHT b)).






Definition payload_height (msg : gmap string Value) : option Value :=
  get_path ["json_data"; "layout"; "height"] (VDict msg).

Definition is_raise {A} (r : Outcome A) : Prop :=
  match r with Raise _ => True | Ok _ => False end.

(** The title that [send_figure] gives the figure. *)
Definition new_title (fig : Figure) : string :=
  Re.strip_tags (or_str (layout_title_text fig) default_title).

(** ** Checks of the float arithmetic on a range *)

(** [p] holds of the [n] integers from [z] on. *)
Fixpoint all_from (n : nat) (z : Z) (p : Z -> bool) : bool :=
  match n with
  | O => true
  | S k => p z && all_from k (z + 1) p
  end.

(** [int(x + d * 0.2)] is [x] plus a fifth of [d], rounded down. *)
Definition inflate_ok (d x : Z) : bool :=
  match inflate d x with
  | Ok r => (r =? x + d / 5)%Z
  | Raise _ => false
  end.

(** [int(s * 9.7)] is the integer part of 9.7 times [s], or one less. *)
Definition pixels_ok (s : Z) : bool :=
  match PyNum.float_trunc (PyNum.mul_float s PyNum.c_9_7) with
  | Ok p => (97 * s / 10 - 1 <=? p)%Z && (p <=? 97 * s / 10)%Z
  | Raise _ => false
  end.

(** The widest column and the largest sum of widths that the checks
    cover: 500 characters, and 100 columns of 600. *)
Definition max_chars : Z := 500.
Definition max_sum : Z := 60000.

(** ** Observations on runs *)

(** The messages that joined the queue between two states of a call. *)
Definition enqueued (before after : State) : list (gmap string Value) :=
  drop (List.length (outgoing (self before))) (outgoing (self after)).

(** The JSON body of a message: the dict under [json_data], read back
    from its text for a table. *)
Definition body_of (msg : gmap string Value) : option (gmap string Value) :=
  match msg !! "json_data" with
  | Some (VDict d) => Some d
  | Some (VJson (VDict d)) => Some d
  | _ => None
  end.

(** Whether the telemetry record of a JSON body names the user. *)
Definition has_identity (body : gmap string Value) : bool :=
  match body !! "posthog" with
  | Some (VDict ph) =>
      match ph !! "user_id", ph !! "email" with
      | None, None => false
      | _, _ => true
      end
  | _ => false
  end.

(** The calls that can be made on the instance. *)
Inductive Call :=
| CallSetWindowDimensions
| CallGetPending
| CallGetPlotlyHtml
| CallGetTableHtml
| CallGetWindowIcon
| CallGetJsonUpdate (cmd_loc theme : option string)
| CallSendFigure (appears : nat -> bool) (fig : Figure)
    (export_image command_location : option string)
| CallProcessImage (appears : nat -> bool) (export_image : string)
| CallSendTable (df_table : DataFrame) (title source : string)
    (theme command_location : option string)
| CallSendUrl (url title : string) (width height : option Z)
| CallGetKwargs (title : option string)
| CallCheckBackend
| CallClose (reset : bool).

(** What a call does to the flag and how many of its records name the
    user. *)
Definition call_ok (st : State) (rs : list (gmap string Value)) (st' : State)
  : Prop :=
  (logged_in (self st) = true -> logged_in (self st') = true)
  /\ match List.filter has_identity rs with
     | [] => True
     | [_] => logged_in (self st) = false /\ logged_in (self st') = true
     | _ => False
     end.

(** The messages waiting in the queue of the object at an address. *)
Definition queue_at (heap_ : list (option Backend)) (a : nat)
  : list (gmap string Value) :=
  match heap_ !! a with
  | Some (Some b) => outgoing b
  | _ => []
  end.

(** A call, with the telemetry records it produced: the one that
    [get_json_update] returned to its caller, or the ones in the
    bodies of the messages that the call enqueued. *)
Definition exec (env : Env) (c : Call) (st : State)
  : list (gmap string Value) * State :=
  let sent (st' : State) := (omap body_of (enqueued st st'), st') in
  match c with
  | CallSetWindowDimensions => sent (snd (set_window_dimensions st))
  | CallGetPending => sent (snd (get_pending st))
  | CallGetPlotlyHtml => sent (snd (get_plotly_html env st))
  | CallGetTableHtml => sent (snd (get_table_html env st))
  | CallGetWindowIcon => sent (snd (get_window_icon env st))
  | CallGetJsonUpdate cmd_loc theme =>
      match get_json_update cmd_loc theme st with
      | (Ok upd, st') => ([upd], st')
      | (Raise _, st') => ([], st')
      end
  | CallSendFigure appears fig export_image command_location =>
      sent (snd (send_figure env appears fig export_image command_location st))
  | CallProcessImage appears export_image =>
      sent (snd (process_image env appears export_image st))
  | CallSendTable df_table title source theme command_location =>
      sent (snd (send_table env df_table title source theme command_location st))
  | CallSendUrl url title width height =>
      sent (snd (send_url env url title width height st))
  | CallGetKwargs title => sent (snd (get_kwargs env title st))
  | CallCheckBackend => sent (snd (check_backend env st))
  | CallClose reset => sent (snd (close reset st))
  end.

(** The telemetry records of a sequence of calls, in order. *)
Fixpoint telemetry (env : Env) (calls : list Call) (st : State)
  : list (gmap string Value) :=
  match calls with
  | [] => []
  | c :: calls' =>
      let '(records, st') := exec env c st in
      (records ++ telemetry env calls' st')%list
  end.

(** What a process can do with the class: construct it, ask
    [create_backend] for it, or call a method on an object. *)
Inductive Op :=
| OpConstruct (settings : ChartingSettings) (daemon_ : bool) (max_retries_ : Z)
    (proc_name_ : string)
| OpCreate (settings : option ChartingSettings)
| OpCall (a : nat) (c : Call).

Definition step (env : Env) (default_settings : ChartingSettings) (o : Op)
    (p : Process) : Process :=
  match o with
  | OpConstruct settings daemon_ max_retries_ proc_name_ =>
      snd (Backend_call env settings daemon_ max_retries_ proc_name_ p)
  | OpCreate settings => create_backend env default_settings settings p
  | OpCall a c =>
      match call a (fun st => (Ok tt, snd (exec env c st))) p with
      | Some (_, p') => p'
      | None => p
      end
  end.

Definition run (env : Env) (default_settings : ChartingSettings)
    (ops : list Op) (p : Process) : Process :=
  List.fold_left (fun p o => step env default_settings o p) ops p.

End Charting.

(* ===================================================================== *)
(** * The window width of a table, as the specification words it *)
(* ===================================================================== *)

(** The width in exact arithmetic: every column width is raised by a
    fifth of the spread, the sum is multiplied by 9.7 and the product
    is clamped between 800 and the configured width plus 100. *)
Module TableSpec.

Import Charting.

Definition clamp (x lo hi : Q) : Q := Qmax lo (Qmin x hi).

Definition inflated (l : list Z) : list Q :=
  List.map (fun x => inject_Z x + (2 # 10) * inject_Z (spread_of l))%Q l.

Definition qsum (l : list Q) : Q := List.fold_left Qplus l 0%Q.

Definition window_width (l : list Z) (configured_width : Z) : Q :=
  clamp (qsum (inflated l) * (97 # 10))%Q 800%Q
        (inject_Z (configured_width + 100)).

Definition table_width (df : DataFrame) (configured_width : Z) : Q :=
  window_width (columnwidth df) configured_width.

End TableSpec.


(* ===================================================================== *)
(** * Sample inputs *)
(* ===================================================================== *)

Module Samples.

Import Py Charting.

Definition settings : ChartingSettings :=
  {| plot_pywry_width := Some 1400%Z;
     plot_pywry_height := Some 762%Z;
     chart_style := "dark";
     log_collect := true;
     user_uuid := Some "user-1";
     user_email := Some "user@example.org";
     app_id := "app-1";
     version := "4.1.0";
     python_version := "3.11.4";
     plot_open_export := false;
     user_exports_directory := "/home/user/OpenBBUserData/exports" |}.

(** Other settings: a narrower window and no telemetry. *)
Definition other_settings : ChartingSettings :=
  {| plot_pywry_width := Some 1000%Z;
     plot_pywry_height := Some 600%Z;
     chart_style := "light";
     log_collect := false;
     user_uuid := None;
     user_email := None;
     app_id := "app-2";
     version := "4.1.0";
     python_version := "3.11.4";
     plot_open_export := false;
     user_exports_directory := "/tmp/exports" |}.

Definition core_path : string := "/site-packages/openbb_charting/core".

(** A terminal session with the templates in place, the window icon
    missing and a healthy PyWry. *)
Definition terminal : Env :=
  {| plots_core_path := core_path;
     path_exists := fun p =>
       String.eqb p (path_join core_path "plotly.html")
       || String.eqb p (path_join core_path "table.html");
     resolve := fun p => p;
     jupyter_notebook := false;
     stdin_isatty := true;
     process_name := "MainProcess";
     platform := "linux";
     pywry_import := None;
     probe := Ok VNone;
     opener_status := 0 |}.


(** A terminal session whose PyWry fails its own check. *)
Definition failing_probe : Env :=
  {| plots_core_path := core_path;
     path_exists := path_exists terminal;
     resolve := fun p => p;
     jupyter_notebook := false;
     stdin_isatty := true;
     process_name := "MainProcess";
     platform := "linux";
     pywry_import := None;
     probe := Raise (ExternalError "backend not responding");
     opener_status := 0 |}.

Definition v0_5_13 : Version := {| vtext := "0.5.13"; release := [0; 5; 13]%nat |}.



Definition figure (title : option string) : Figure :=
  {| data := VList [];
     layout_title_text := title;
     layout_height := 500;
     layout_other := ∅ |}.




End Samples.

(* ===================================================================== *)
(** * The download of plotly.js *)
(* ===================================================================== *)

(** [download_plotly_js]: the assets folder is a finite map from file
    names to contents, the network is the outcome of the request and
    of each read of the body. *)
Module PlotlyJs.

Import Py.

(** [PLOTLYJS_PATH.name] *)
Definition js_filename : string := "plotly-2.32.0.min.js".

(** The last [n] characters of [s]. *)
Definition last_chars (n : nat) (s : string) : string :=
  String.substring (String.length s - n) n s.

(** The pattern [plotly*.js] of the glob: the name starts with
    [plotly] and what follows ends with [.js]. *)
Definition matches_plotly_js (name : string) : bool :=
  String.prefix "plotly" name
  && (3 <=? String.length name - 6)%nat
  && String.eqb (last_chars 3 name) ".js".

(** [str(err)] in the warning. *)
Definition exc_text (e : Exception) : string :=
  match e with
  | FileNotFoundError => "FileNotFoundError"
  | AttributeError attr => attr
  | ValueError msg => msg
  | OverflowError => "OverflowError"
  | CalledProcessError _ => "CalledProcessError"
  | ExternalError msg => msg
  end.

(** What the coroutine meets: the outcome of [session.get], of
    [open(..., "wb")] and of the successive [resp.content.read(1024)];
    past the last one the body is at its end. *)
Record Net := {
  request : Outcome unit;
  open_file : Outcome unit;
  reads : list (Outcome string)
}.

Record Disk := {
  assets : gmap string string;
  warnings : list string
}.

(** The loop [while True: chunk = read(1024); if not chunk: break;
    f.write(chunk)]: how it ends and what was written. *)
Fixpoint write_chunks (rs : list (Outcome string)) (written : string)
  : Outcome unit * string :=
  match rs with
  | [] => (Ok tt, written)
  | Ok chunk :: rs' =>
      if PyStr.truthy chunk then write_chunks rs' (written ++ chunk)
      else (Ok tt, written)
  | Raise e :: _ => (Raise e, written)
  end.

(** The files that stay when the old versions are deleted. *)
Definition kept (name : string) : bool :=
  negb (matches_plotly_js name) || String.eqb name js_filename.

Definition warn_download (e : Exception) (d : Disk) (files : gmap string string)
  : Disk :=
  let message := "Error downloading plotly.js: " ++ exc_text e in
  {| assets := files; warnings := (warnings d ++ [message])%list |}.

Definition download_plotly_js (net : Net) (d : Disk) : Disk :=
  match request net with
  | Raise e => warn_download e d (assets d)
  | Ok _ =>
      match open_file net with
      | Raise e => warn_download e d (assets d)
      | Ok _ =>
          let '(r, content) := write_chunks (reads net) EmptyString in
          let files := <[js_filename := content]> (assets d) in
          match r with
          | Raise e => warn_download e d files
          | Ok _ =>
              {| assets := filter (fun kv => kept kv.1 = true) files;
                 warnings := warnings d |}
          end
      end
  end.

(** The chunks that are written: the ones before the first empty
    chunk. *)
Fixpoint body_of_chunks (cs : list string) : string :=
  match cs with
  | [] => EmptyString
  | c :: cs' => if PyStr.truthy c then c ++ body_of_chunks cs' else EmptyString
  end.

End PlotlyJs.

(* ===================================================================== *)
(** * What a call may change *)
(* ===================================================================== *)

Module Frames.

Import Py Charting.

(** The part of the instance that is fixed at construction. *)
Definition same_config (b b' : Backend) : Prop :=
  charting_settings b' = charting_settings b
  /\ daemon b' = daemon b
  /\ proc_name b' = proc_name b
  /\ plotly_html b' = plotly_html b
  /\ table_html b' = table_html b
  /\ isatty b' = isatty b.

(** What no call undoes: the configuration stays, the retry budget
    stays or becomes 0 or 50, warnings are only added, [logged_in]
    stays once set and so does the version of PyWry once known. *)
Definition keeps_core (st st' : State) : Prop :=
  same_config (self st) (self st')
  /\ (max_retries (self st') = max_retries (self st)
      \/ max_retries (self st') = 0%Z \/ max_retries (self st') = 50%Z)
  /\ (exists w, warned st' = (warned st ++ w)%list)
  /\ (logged_in (self st) = true -> logged_in (self st') = true)
  /\ (forall v, PyWry_version st = Some v -> PyWry_version st' = Some v).

(** The queues: messages are only added to [outgoing], at its end. *)
Definition keeps_queue (st st' : State) : Prop :=
  init_engine (self st') = init_engine (self st)
  /\ exists new, outgoing (self st') = (outgoing (self st) ++ new)%list.

(** How the state may move in a call that is not [get_pending]. *)
Definition evolves (st st' : State) : Prop :=
  keeps_core st st' /\ keeps_queue st st'.

(** Every state that a method goes through is related to the state at
    its start. *)
Definition stable {A} (m : M A) : Prop :=
  forall st, evolves st (snd (m st)).

(** The state after a sequence of calls. *)
Definition run_calls (env : Env) (calls : list Call) (st : State) : State :=
  List.fold_left (fun st c => snd (exec env c st)) calls st.

Definition is_get_pending (c : Call) : bool :=
  match c with CallGetPending => true | _ => false end.

Definition is_open (e : Event) : bool :=
  match e with EvOpen _ _ => true | _ => false end.



(** A value inside the layout of the body of a message. *)
Definition payload_layout (k : string) (msg : gmap string Value)
  : option Value :=
  get_path ["json_data"; "layout"; k] (VDict msg).

(** Whether a sequence of operations calls [create_backend]. *)
Definition is_create (o : Op) : bool :=
  match o with OpCreate _ => true | _ => false end.


End Frames.

(* ===================================================================== *)
(** * Sessions and sample data for the further properties *)
(* ===================================================================== *)

Module Sessions.

Import Py Charting.


(** The invariant of the heap between operations: no object yet, or
    the one object, initialised. *)
Definition one_object (p : Process) : Prop :=
  heap p = [] \/ exists b, heap p = [Some b].

(** A table of two narrow columns, 6 and 4 characters wide. *)
Definition small_table : DataFrame :=
  {| columns :=
       [ {| col_name := "symbol"; col_values := ["AAPL"; "MSFT"] |};
         {| col_name := "pe"; col_values := ["28.3"; "33.1"] |} ];
     split_json := ∅ |}.


(** An assets folder with an older plotly.js and the window icon, and
    a download in two chunks. *)
Definition old_assets : PlotlyJs.Disk :=
  {| PlotlyJs.assets :=
       <["plotly-2.18.0.min.js" := "old"]> {["Terminal_icon.png" := "png"]};
     PlotlyJs.warnings := [] |}.

Definition two_chunks : PlotlyJs.Net :=
  {| PlotlyJs.request := Ok tt;
     PlotlyJs.open_file := Ok tt;
     PlotlyJs.reads := [Ok "abc"; Ok "def"; Ok EmptyString] |}.

End Sessions.

(* ===================================================================== *)
(** * Properties of the string operations *)
(* ===================================================================== *)

Module PyStrFacts.

Import PyStr.























End PyStrFacts.

(* ===================================================================== *)
(** * The financial-ratios query: the two normalizations *)
(* ===================================================================== *)

Module FinancialRatiosFacts.

Import PyStr PyStrFacts FinancialRatios.




End FinancialRatiosFacts.

(* ===================================================================== *)
(** * Properties of the tag removal *)
(* ===================================================================== *)

Module ReFacts.

Import Re.

(** The scan keeps characters of its input only: a character that is
    not in the input is not in the output. *)
Lemma index_of_sub_scan f x s :
  index_of x s = None -> forall skip, index_of x (sub_scan f s skip) = None.
Proof.
  induction s as [|c s IH]; intros H skip; [reflexivity|].
  cbn [index_of] in H. destruct (Ascii.eqb c x) eqn:E; [discriminate|].
  assert (Hs : index_of x s = None) by (destruct (index_of x s); congruence).
  cbn [sub_scan]. destruct skip as [|k]; [|now apply IH].
  destruct (f (String c s)) as [[|n]|]; try (now apply IH);
    cbn [index_of]; rewrite E, (IH Hs 0%nat); reflexivity.
Qed.

Lemma match_tag_cons c s :
  match_tag (String c s)
  = if Ascii.eqb c lt_sign
    then match index_of gt_sign s with
         | Some j => Some (S (S j))
         | None => None
         end
    else None.
Proof. reflexivity. Qed.

Lemma has_tag_sub_scan s : forall skip, has_tag (sub_scan match_tag s skip) = false.
Proof.
  induction s as [|c s IH]; intros skip; [reflexivity|].
  cbn [sub_scan]. destruct skip as [|k]; [|apply IH].
  rewrite match_tag_cons. destruct (Ascii.eqb c lt_sign) eqn:E.
  - destruct (index_of gt_sign s) as [j|] eqn:Ej; [apply IH|].
    cbn [has_tag]. rewrite E, IH.
    now rewrite (index_of_sub_scan match_tag gt_sign s Ej 0).
  - cbn [has_tag]. rewrite E, IH. reflexivity.
Qed.

(** No [<...>] is left in a title once [strip_tags] has run. *)
Lemma strip_tags_no_tag s : has_tag (strip_tags s) = false.
Proof. apply has_tag_sub_scan. Qed.

(** A title without a [>] has no tag, and is left as it is. *)
Lemma sub_scan_no_gt s :
  index_of gt_sign s = None -> sub_scan match_tag s 0 = s.
Proof.
  induction s as [|c s IH]; intros H; [reflexivity|].
  cbn [index_of] in H. destruct (Ascii.eqb c gt_sign) eqn:E; [discriminate|].
  assert (Hs : index_of gt_sign s = None)
    by (destruct (index_of gt_sign s); congruence).
  cbn [sub_scan]. rewrite match_tag_cons, Hs, (IH Hs).
  now destruct (Ascii.eqb c lt_sign).
Qed.

Lemma strip_tags_fixed s : has_tag s = false -> strip_tags s = s.
Proof.
  unfold strip_tags, sub_empty.
  induction s as [|c s IH]; intros H; [reflexivity|].
  cbn [has_tag] in H. apply orb_false_iff in H as [H1 H2].
  cbn [sub_scan]. rewrite match_tag_cons, (IH H2).
  destruct (Ascii.eqb c lt_sign); [|reflexivity].
  destruct (index_of gt_sign s); [discriminate | reflexivity].
Qed.

Lemma append_nil (s : string) : EmptyString ++ s = s.
Proof. reflexivity. Qed.

Lemma append_cons c (a s : string) : String c a ++ s = String c (a ++ s).
Proof. reflexivity. Qed.


Lemma sub_scan_skip f t c b :
  sub_scan f (t ++ String c b) (S (String.length t)) = sub_scan f b 0.
Proof.
  induction t as [|d t IH]; rewrite ?append_nil, ?append_cons;
    cbn [String.length sub_scan]; [reflexivity | apply IH].
Qed.


End ReFacts.

(* ===================================================================== *)
(** * The export watcher *)
(* ===================================================================== *)

Module WatcherFacts.

Import Py Charting.

(** The loop, one turn at a time. *)
Lemma poll_step appears checks tr :
  poll appears checks tr =
  if appears checks then (checks, (tr ++ [EvExists checks true])%list)
  else if (S checks <=? 50)%nat
       then poll appears (S checks)
                 (tr ++ [EvExists checks false; EvSleep 200])%list
       else (S checks, (tr ++ [EvExists checks false; EvSleep 200])%list).
Proof.
  rewrite poll_equation_1. destruct (appears checks); [reflexivity|].
  destruct (S checks <=? 50)%nat eqn:E;
    [apply Nat.leb_le in E | apply Nat.leb_gt in E];
    cbn [poll_unfold_clause_1 poll_unfold_clause_1_clause_2];
    destruct (le_lt_dec (S checks) 50) as [H|H];
    cbn [poll_unfold_clause_1_clause_2]; try reflexivity; lia.
Qed.

Lemma fruitless_snoc k n :
  fruitless k (S n)
  = (fruitless k n ++ [EvExists (k + n) false; EvSleep 200])%list.
Proof.
  unfold fruitless. rewrite seq_S, flat_map_app. reflexivity.
Qed.

Lemma fruitless_cons k n :
  fruitless k (S n)
  = ([EvExists k false; EvSleep 200] ++ fruitless (S k) n)%list.
Proof. reflexivity. Qed.


(** The file is not there during the first 51 checks: the loop leaves
    through [break] with [checks = 51]. *)
Lemma poll_timeout appears :
  (forall i, (i <= 50)%nat -> appears i = false) ->
  forall j tr, (j <= 50)%nat ->
  poll appears j tr = (51%nat, (tr ++ fruitless j (51 - j))%list).
Proof.
  intros Hnever j tr Hj.
  remember (50 - j)%nat as n eqn:Hn. revert j tr Hj Hn.
  induction n as [|n IH]; intros j tr Hj Hn.
  - assert (j = 50)%nat by lia. subst j.
    rewrite poll_step, Hnever by lia. reflexivity.
  - rewrite poll_step, Hnever by lia.
    replace (S j <=? 50)%nat with true by (symmetry; apply Nat.leb_le; lia).
    rewrite (IH (S j)) by lia.
    replace (51 - j)%nat with (S (51 - S j)) by lia.
    rewrite fruitless_cons. now rewrite <- !app_assoc.
Qed.


Lemma count_sleeps_fruitless k n :
  List.length (List.filter is_sleep (fruitless k n)) = n.
Proof.
  revert k. induction n as [|n IH]; intros k; [reflexivity|].
  rewrite fruitless_cons. simpl. now rewrite IH.
Qed.

Lemma sleeps_fruitless k n e :
  In e (fruitless k n) -> is_sleep e = true -> e = EvSleep 200.
Proof.
  unfold fruitless. rewrite in_flat_map. intros (i & _ & Hin) Hs.
  destruct Hin as [<-|[<-|[]]]; [discriminate | reflexivity].
Qed.

(** A file that is there at the call is found without a poll and
    without a sleep. *)
Lemma process_image_found_at_once env appears export_image st :
  appears 0%nat = true ->
  plot_open_export (charting_settings (self st)) = false ->
  process_image env appears export_image st
  = (Ok {| polls := 0; found := true;
           trace := [EvExists 0 true; EvExists 0 true] |}, st).
Proof.
  intros H0 Hopen. unfold process_image.
  rewrite poll_step, H0. simpl. rewrite H0. unfold bind, get_self. simpl.
  rewrite Hopen. reflexivity.
Qed.

(** C1.  A run of [process_image] on a file that never shows up: the
    loop sleeps 51 times, 200 ms each time, looks for the file once
    before each sleep and once more at the end, and returns without
    raising.  The counter [checks] is 51 when the loop is left, not
    50: the test [checks > 50] comes after the increment. *)
Theorem process_image_never_appears env export_image st :
  process_image env (fun _ => false) export_image st
  = (Ok {| polls := 51; found := false;
           trace := (fruitless 0 51 ++ [EvExists 51 false])%list |}, st)
  /\ List.length (List.filter is_sleep (fruitless 0 51)) = 51%nat
  /\ (forall e, In e (fruitless 0 51) -> is_sleep e = true -> e = EvSleep 200).
Proof.
  split; [|split].
  - unfold process_image.
    rewrite (poll_timeout (fun _ => false)) by (auto; lia).
    reflexivity.
  - apply count_sleeps_fruitless.
  - apply sleeps_fruitless.
Qed.

End WatcherFacts.

(* ===================================================================== *)
(** * Assets and the health check *)
(* ===================================================================== *)

Module BackendFacts.

Import Py Charting.

(** Unfolding of the monad and of the small methods. *)
Ltac run_m :=
  unfold get_plotly_html, get_table_html, get_window_icon,
    set_window_dimensions, check_version, super_check_backend, try_except,
    send_outgoing, dunder_version, close,
    bind, ret, raise, get_self, set_self, set_PyWry_version, warn in *;
  cbn [self PyWry_version warned fst snd
       charting_settings daemon max_retries proc_name plotly_html table_html
       isatty WIDTH HEIGHT logged_in outgoing init_engine
       with_max_retries with_dimensions with_logged_in with_queues] in *.



(** ** Versions *)

Lemma release_cmp_nil_r a :
  release_cmp a [] = if forallb (Nat.eqb 0) a then Eq else Gt.
Proof.
  destruct a as [|x a]; [reflexivity|]. cbn [release_cmp].
  f_equal.
Qed.

(** Swapping the arguments of the comparison swaps its result. *)
Lemma release_cmp_antisym a b :
  release_cmp b a = CompOpp (release_cmp a b).
Proof.
  revert b. induction a as [|x a IH]; intros b.
  - rewrite release_cmp_nil_r. cbn [release_cmp].
    now destruct (forallb (Nat.eqb 0) b).
  - destruct b as [|y b].
    + cbn [release_cmp]. now destruct (forallb (Nat.eqb 0) (x :: a)).
    + cbn [release_cmp]. rewrite (Nat.compare_antisym x y).
      destruct (x ?= y)%nat; cbn; auto.
Qed.

Lemma version_lt_gt v w : version_lt v w = version_gt w v.
Proof.
  unfold version_lt, version_gt, version_cmp.
  rewrite (release_cmp_antisym (release v) (release w)).
  now destruct (release_cmp (release v) (release w)).
Qed.



End BackendFacts.

(* ===================================================================== *)
(** * The singleton *)
(* ===================================================================== *)

Module SingletonFacts.

Import Py Charting.

Lemma start_inv v : singleton_inv (start_of_process v).
Proof. split; reflexivity. Qed.

Lemma Backend_new_spec p :
  singleton_inv p ->
  fst (Backend_new p) = 0%nat
  /\ instance (snd (Backend_new p)) = Some 0%nat
  /\ List.length (heap (snd (Backend_new p))) = 1%nat
  /\ BACKEND (snd (Backend_new p)) = BACKEND p
  /\ PyWry__version__ (snd (Backend_new p)) = PyWry__version__ p.
Proof.
  unfold singleton_inv, Backend_new. intros H.
  destruct (instance p) as [a|] eqn:E; cbn.
  - destruct H as (-> & Hlen & _). rewrite E. auto.
  - destruct H as (-> & _). auto.
Qed.

Lemma Backend_call_spec env s d r n p :
  singleton_inv p ->
  let c := Backend_call env s d r n p in
  fst c = 0%nat
  /\ instance (snd c) = Some 0%nat
  /\ heap (snd c) = [Some (Backend_init env (PyWry__version__ p) s d r n)]
  /\ BACKEND (snd c) = BACKEND p
  /\ PyWry__version__ (snd c) = PyWry__version__ p.
Proof.
  intros H. destruct (Backend_new_spec p H) as (Ha & Hi & Hl & Hb & Hv).
  unfold Backend_call. destruct (Backend_new p) as [a p1]. cbn in *. subst a.
  rewrite Hv. repeat split; auto.
  destruct (heap p1) as [|x [|y l]]; try discriminate. reflexivity.
Qed.

Lemma Backend_call_inv env s d r n p :
  singleton_inv p -> singleton_inv (snd (Backend_call env s d r n p)).
Proof.
  intros H. pose proof H as H'. apply (Backend_call_spec env s d r n) in H'.
  cbv zeta in H'. destruct H' as (_ & Hi & Hh & Hb & _).
  unfold singleton_inv. rewrite Hi, Hh, Hb. repeat split.
  unfold singleton_inv in H. destruct (instance p); tauto.
Qed.

Lemma create_backend_inv env dflt s p :
  singleton_inv p -> singleton_inv (create_backend env dflt s p).
Proof.
  intros H. unfold create_backend. destruct (BACKEND p) eqn:E; [exact H|].
  pose proof (Backend_call_spec env
                (match s with Some s' => s' | None => dflt end)
                true 30 "OpenBB Terminal" p H) as H'.
  cbv zeta in H'. destruct H' as (Ha & Hi & Hh & _).
  destruct (Backend_call _ _ _ _ _ p) as [a p1]. cbn in *. subst a.
  unfold singleton_inv. cbn. rewrite Hi, Hh. auto.
Qed.

Lemma call_inv {A} a (m : M A) p r p' :
  singleton_inv p -> call a m p = Some (r, p') -> singleton_inv p'.
Proof.
  unfold call, singleton_inv. intros H Hc.
  destruct (heap p !! a) as [[b|]|] eqn:E; try discriminate.
  destruct (m _) as [r' st]. inversion Hc; subst; clear Hc. cbn.
  destruct (instance p); [|destruct H as [H _]; rewrite H in E; discriminate].
  destruct H as (-> & Hl & Hb). rewrite length_insert. auto.
Qed.

Lemma step_inv env dflt o p :
  singleton_inv p -> singleton_inv (step env dflt o p).
Proof.
  intros H. destruct o as [s d r n|s|a c]; cbn [step].
  - now apply Backend_call_inv.
  - now apply create_backend_inv.
  - destruct (call a _ p) as [[r p']|] eqn:E; [|exact H].
    eapply call_inv; eauto.
Qed.

Lemma run_inv env dflt ops p :
  singleton_inv p -> singleton_inv (run env dflt ops p).
Proof.
  unfold run. revert p. induction ops as [|o ops IH]; intros p H; cbn.
  - exact H.
  - apply IH, step_inv, H.
Qed.

(** C3, as the code has it.  Whatever the process has done so far, at
    most one object of class [Backend] exists.  Two constructions in a
    row yield the same object, and the second one runs [__init__] on
    it again: the object then carries the settings of the second
    call.  Two calls of [create_backend] in a row leave the process as
    the first call left it: the settings of the second are ignored,
    and [get_backend] returns the one object. *)
Theorem one_backend_per_process env dflt v ops :
  let p := run env dflt ops (start_of_process v) in
  (List.length (heap p) <= 1)%nat
  /\ (forall s1 d1 r1 n1 s2 d2 r2 n2,
        let c1 := Backend_call env s1 d1 r1 n1 p in
        let c2 := Backend_call env s2 d2 r2 n2 (snd c1) in
        fst c1 = fst c2
        /\ List.length (heap (snd c2)) = 1%nat
        /\ settings_at (snd c1) (fst c1) = Some s1
        /\ settings_at (snd c2) (fst c2) = Some s2)
  /\ (forall s1 s2,
        let p1 := create_backend env dflt s1 p in
        create_backend env dflt s2 p1 = p1
        /\ exists a, get_backend p1 = Ok a /\ instance p1 = Some a
                     /\ (List.length (heap p1) = 1)%nat).
Proof.
  intros p. assert (Hp : singleton_inv p) by apply run_inv, start_inv.
  repeat apply conj.
  - unfold singleton_inv in Hp. destruct (instance p).
    + destruct Hp as (_ & -> & _). lia.
    + destruct Hp as (-> & _). cbn. lia.
  - intros s1 d1 r1 n1 s2 d2 r2 n2 c1 c2.
    pose proof (Backend_call_spec env s1 d1 r1 n1 p Hp) as H1.
    pose proof (Backend_call_spec env s2 d2 r2 n2 (snd c1)
                  (Backend_call_inv env s1 d1 r1 n1 p Hp)) as H2.
    cbv zeta in H1, H2. fold c1 in H1, H2. fold c2 in H2.
    destruct H1 as (Ha1 & _ & Hh1 & _). destruct H2 as (Ha2 & _ & Hh2 & _).
    unfold settings_at. rewrite Ha1, Ha2, Hh1, Hh2. repeat split.
  - intros s1 s2 p1.
    assert (H1 : singleton_inv p1) by (apply create_backend_inv, Hp).
    assert (Hb : exists a, BACKEND p1 = Some a).
    { unfold p1, create_backend. destruct (BACKEND p) eqn:E; [eauto|].
      destruct (Backend_call _ _ _ _ _ p). cbn. eauto. }
    destruct Hb as [a Hb]. split.
    + unfold create_backend. now rewrite Hb.
    + exists a. unfold get_backend. rewrite Hb.
      unfold singleton_inv in H1. destruct (instance p1).
      * destruct H1 as (-> & Hl & [Hn|Hs]); [congruence|].
        rewrite Hb in Hs. inversion Hs. auto.
      * destruct H1 as (_ & Hn). congruence.
Qed.

(** A second construction with other settings: the one object that
    exists takes the new settings. *)
Lemma second_construction_replaces_settings :
  let p0 := start_of_process (Some Samples.v0_5_13) in
  let c1 := Backend_call Samples.terminal Samples.settings true 30
                         "OpenBB Terminal" p0 in
  let c2 := Backend_call Samples.terminal Samples.other_settings true 30
                         "OpenBB Terminal" (snd c1) in
  fst c1 = fst c2
  /\ settings_at (snd c1) (fst c1) = Some Samples.settings
  /\ settings_at (snd c2) (fst c2) = Some Samples.other_settings
  /\ chart_style Samples.other_settings <> chart_style Samples.settings.
Proof. repeat split. discriminate. Qed.

End SingletonFacts.

(* ===================================================================== *)
(** * The three dispatch operations *)
(* ===================================================================== *)

Module DispatchFacts.

Import Py Charting BackendFacts.

(** ** What the small methods do to the state *)

Lemma get_kwargs_eq env title st :
  get_kwargs env title st
  = (Ok (kwargs_dict title (icon_of env)
           (user_exports_directory (charting_settings (self st)))), st).
Proof.
  unfold get_kwargs, icon_of. run_m.
  destruct (path_exists env (icon_path env)); reflexivity.
Qed.

Lemma get_json_update_eq cmd_loc theme st :
  get_json_update cmd_loc theme st
  = (match PyWry_version st with
     | Some v =>
         Ok (json_update (charting_settings (self st))
               (posthog_record (charting_settings (self st))
                               (identifies (self st)))
               theme cmd_loc v)
     | None => Raise (AttributeError "__version__")
     end, flagged st).
Proof.
  unfold get_json_update, flagged. run_m.
  destruct (identifies (self st)); cbn;
    destruct (PyWry_version st); reflexivity.
Qed.

Lemma flagged_fields st :
  logged_in (self (flagged st)) = logged_in (self st) || identifies (self st)
  /\ outgoing (self (flagged st)) = outgoing (self st)
  /\ charting_settings (self (flagged st)) = charting_settings (self st)
  /\ plotly_html (self (flagged st)) = plotly_html (self st)
  /\ table_html (self (flagged st)) = table_html (self st)
  /\ PyWry_version (flagged st) = PyWry_version st.
Proof.
  unfold flagged. destruct (identifies (self st)) eqn:E; cbn.
  - repeat split. now rewrite orb_true_r.
  - repeat split. now rewrite orb_false_r.
Qed.

Lemma process_image_state env appears export_image st :
  snd (process_image env appears export_image st) = st.
Proof.
  unfold process_image. destruct (poll appears 0 []) as [checks tr]. run_m.
  destruct (appears checks && plot_open_export (charting_settings (self st)));
    [|reflexivity].
  destruct (String.eqb (platform env) "win32"); [reflexivity|].
  destruct (opener_status env =? 0)%Z; reflexivity.
Qed.

(** [check_backend] touches nothing of the instance but the retry
    budget. *)
Lemma check_backend_self env st :
  self (snd (check_backend env st)) = self st
  \/ self (snd (check_backend env st)) = with_max_retries 0 (self st).
Proof.
  unfold check_backend. run_m.
  destruct (isatty (self st)); cbn; [|now left].
  destruct (PyWry_version st) as [v|]; [|destruct (pywry_import env) as [v|]];
    cbn; try (now right);
    destruct (version_lt v v0_5_12); cbn; try (now right);
    destruct (version_gt v v0_5_12); cbn; try (now left);
    destruct (probe env); now left.
Qed.

Lemma drop_app_length {A} (l m : list A) : drop (List.length l) (l ++ m)%list = m.
Proof. induction l; [reflexivity | assumption]. Qed.

Lemma drop_all {A} (l : list A) : drop (List.length l) l = [].
Proof. induction l; [reflexivity | assumption]. Qed.

(** ** [send_figure] *)

Lemma dispatch_figure_spec env appears fig ex cmd st :
  let '(r, st') := dispatch_figure env appears fig ex cmd st in
  logged_in (self st') = logged_in (self st) || identifies (self st)
  /\ match PyWry_version st with
     | None =>
         outgoing (self st') = outgoing (self st) /\ is_raise r
     | Some v =>
         if path_exists env (plotly_html (self st))
         then outgoing (self st')
              = (outgoing (self st)
                 ++ [figure_message env (self st) v fig ex cmd])%list
              /\ (export_path env ex = None -> r = Ok tt)
         else outgoing (self st') = outgoing (self st) /\ is_raise r
     end.
Proof.
  unfold dispatch_figure.
  unfold bind at 1. unfold get_self at 1. cbn [self].
  unfold bind at 1. rewrite get_json_update_eq.
  destruct (flagged_fields st) as (Hl & Ho & Hc & Hp & _ & Hv).
  destruct (PyWry_version st) as [v|] eqn:Ev.
  2:{ cbn. rewrite Hl, Ho. auto. }
  unfold bind at 1. unfold get_plotly_html. run_m.
  rewrite Hp.
  destruct (path_exists env (plotly_html (self st))) eqn:Ex.
  2:{ cbn. rewrite Hl, Ho. auto. }
  rewrite get_kwargs_eq. run_m. rewrite Hc.
  destruct (export_path env ex) as [p|] eqn:Ep.
  - match goal with
    | |- context [process_image ?e ?a ?q ?s] =>
        pose proof (process_image_state e a q s) as Hs;
        destruct (process_image e a q s) as [[w|err] s']
    end; cbn in Hs; subst; run_m; rewrite ?Hl, ?Ho, ?Hp;
      (split; [auto|split; [|discriminate]]);
      unfold figure_message; now rewrite Ep.
  - run_m. rewrite ?Hl, ?Ho, ?Hp. split; [auto|split; [|reflexivity]].
    unfold figure_message. now rewrite Ep.
Qed.


Lemma figure_message_retries env n b v fig ex cmd :
  figure_message env (with_max_retries n b) v fig ex cmd
  = figure_message env b v fig ex cmd.
Proof. reflexivity. Qed.

Lemma table_message_retries env n b v df title source theme cmd width :
  table_message env (with_max_retries n b) v df title source theme cmd width
  = table_message env b v df title source theme cmd width.
Proof. reflexivity. Qed.

(** The whole of [send_figure]: either the health check raises and the
    figure is not touched, or the figure is touched and the message,
    if the template is there, joins the queue. *)
Lemma send_figure_spec env appears fig ex cmd st :
  let '(r, fig', st') := send_figure env appears fig ex cmd st in
  let st1 := snd (check_backend env st) in
  match fst (check_backend env st) with
  | Raise e =>
      r = Raise e /\ fig' = fig
      /\ outgoing (self st') = outgoing (self st)
      /\ logged_in (self st') = logged_in (self st)
  | Ok _ =>
      fig' = touch_figure fig
      /\ logged_in (self st') = logged_in (self st) || identifies (self st)
      /\ match PyWry_version st1 with
         | None => outgoing (self st') = outgoing (self st) /\ is_raise r
         | Some v =>
             if path_exists env (plotly_html (self st))
             then outgoing (self st')
                  = (outgoing (self st)
                     ++ [figure_message env (self st) v (touch_figure fig)
                                        ex cmd])%list
                  /\ (export_path env ex = None -> r = Ok tt)
             else outgoing (self st') = outgoing (self st) /\ is_raise r
         end
  end.
Proof.
  unfold send_figure.
  pose proof (check_backend_self env st) as Hself.
  destruct (check_backend env st) as [[x|e] st1]; cbn [fst snd] in *.
  - pose proof (dispatch_figure_spec env appears (touch_figure fig) ex cmd st1)
      as H.
    destruct (dispatch_figure env appears (touch_figure fig) ex cmd st1)
      as [r st2].
    destruct H as (Hl & Hq). split; [reflexivity|].
    destruct Hself as [E|E]; rewrite E in *; cbn [with_max_retries
      logged_in outgoing plotly_html] in *;
      rewrite ?figure_message_retries in Hq; split; assumption.
  - destruct Hself as [E|E]; rewrite E; repeat split.
Qed.

(** ** [send_table] *)

Lemma send_table_spec env df title source theme cmd st :
  let '(r, st') := send_table env df title source theme cmd st in
  let st1 := snd (check_backend env st) in
  match fst (check_backend env st), table_width df (WIDTH (self st)) with
  | Ok _, Ok width =>
      logged_in (self st') = logged_in (self st) || identifies (self st)
      /\ match PyWry_version st1 with
         | None => outgoing (self st') = outgoing (self st) /\ is_raise r
         | Some v =>
             if path_exists env (table_html (self st))
             then outgoing (self st')
                  = (outgoing (self st)
                     ++ [table_message env (self st) v df title source theme
                                       cmd width])%list
                  /\ r = Ok tt
             else outgoing (self st') = outgoing (self st) /\ is_raise r
         end
  | _, _ =>
      is_raise r
      /\ outgoing (self st') = outgoing (self st)
      /\ logged_in (self st') = logged_in (self st)
  end.
Proof.
  unfold send_table. unfold bind at 1.
  pose proof (check_backend_self env st) as Hself.
  destruct (check_backend env st) as [[x|e] st1]; cbn [fst snd] in *.
  2:{ destruct Hself as [E|E]; rewrite E; repeat split. }
  unfold bind at 1. unfold get_self at 1. cbn [self].
  assert (HW : WIDTH (self st1) = WIDTH (self st))
    by (destruct Hself as [E|E]; now rewrite E).
  rewrite HW. destruct (table_width df (WIDTH (self st))) as [width|e].
  2:{ cbn. destruct Hself as [E|E]; rewrite E; repeat split. }
  unfold bind at 1. rewrite get_json_update_eq.
  destruct (flagged_fields st1) as (Hl & Ho & Hc & _ & Ht & Hv).
  assert (Hid : identifies (self st1) = identifies (self st))
    by (destruct Hself as [E|E]; now rewrite E).
  assert (Hl1 : logged_in (self st1) = logged_in (self st))
    by (destruct Hself as [E|E]; now rewrite E).
  assert (Ho1 : outgoing (self st1) = outgoing (self st))
    by (destruct Hself as [E|E]; now rewrite E).
  assert (Ht1 : table_html (self st1) = table_html (self st))
    by (destruct Hself as [E|E]; now rewrite E).
  assert (Hc1 : charting_settings (self st1) = charting_settings (self st))
    by (destruct Hself as [E|E]; now rewrite E).
  destruct (PyWry_version st1) as [v|] eqn:Ev.
  2:{ cbn. rewrite Hl, Ho, Hid, Hl1, Ho1. repeat split. }
  unfold bind at 1. unfold get_table_html. run_m.
  rewrite Ht, Ht1.
  destruct (path_exists env (table_html (self st))) eqn:Ex.
  2:{ cbn. rewrite Hl, Ho, Hid, Hl1, Ho1. repeat split. }
  rewrite get_kwargs_eq. run_m.
  rewrite ?Hl, ?Ho, ?Hc, ?Hid, ?Hl1, ?Ho1, ?Ht, ?Ht1, ?Hc1.
  unfold table_message. rewrite ?Hid. repeat split.
Qed.

(** ** [send_url] *)

Lemma send_url_spec env url title width height st :
  let '(r, st') := send_url env url title width height st in
  match fst (check_backend env st) with
  | Raise e =>
      r = Raise e /\ outgoing (self st') = outgoing (self st)
      /\ logged_in (self st') = logged_in (self st)
  | Ok _ =>
      r = Ok tt
      /\ outgoing (self st')
         = (outgoing (self st)
            ++ [url_message env (self st) url title width height])%list
      /\ logged_in (self st') = logged_in (self st)
  end.
Proof.
  unfold send_url. unfold bind at 1.
  pose proof (check_backend_self env st) as Hself.
  destruct (check_backend env st) as [[x|e] st1]; cbn [fst snd] in *.
  2:{ destruct Hself as [E|E]; rewrite E; repeat split. }
  unfold bind at 1. rewrite get_kwargs_eq. run_m.
  destruct Hself as [E|E]; rewrite E; repeat split.
Qed.

End DispatchFacts.

(* ===================================================================== *)
(** * The messages on the wire *)
(* ===================================================================== *)

Module WireFacts.

Import Py Charting BackendFacts DispatchFacts.





(** The queue after a call, seen from the queue before it. *)
Lemma enqueued_same st st' :
  outgoing (self st') = outgoing (self st) -> enqueued st st' = [].
Proof. unfold enqueued. intros ->. apply drop_all. Qed.

Lemma enqueued_one st st' msg :
  outgoing (self st') = (outgoing (self st) ++ [msg])%list ->
  enqueued st st' = [msg].
Proof. unfold enqueued. intros ->. apply drop_app_length. Qed.




End WireFacts.

(* ===================================================================== *)
(** * The figure: its title and its height *)
(* ===================================================================== *)

Module FigureFacts.

Import Py Charting BackendFacts DispatchFacts WireFacts.

Lemma figure_json_data_layout fig cs ph th cmd v bg :
  figure_json_data fig (json_update cs ph th cmd v) bg !! "layout"
  = Some (VDict (<["paper_bgcolor" := VStr bg]> (layout_to_json fig))).
Proof.
  unfold figure_json_data.
  assert (H : update (to_json fig) (json_update cs ph th cmd v) !! "layout"
              = Some (VDict (layout_to_json fig))).
  { unfold update. rewrite lookup_union_r by reflexivity.
    unfold to_json. apply lookup_insert_eq. }
  rewrite H. apply lookup_insert_eq.
Qed.

Lemma figure_message_body env b v fig ex cmd :
  figure_message env b v fig ex cmd !! "json_data"
  = Some (VDict (figure_json_data fig
                   (json_update (charting_settings b)
                      (posthog_record (charting_settings b) (identifies b))
                      None cmd v)
                   (paper_bg_of (charting_settings b)))).
Proof.
  unfold figure_message, figure_outgoing, update.
  rewrite lookup_union_r by reflexivity.
  rewrite lookup_insert_ne by done. apply lookup_insert_eq.
Qed.

Lemma layout_to_json_height fig :
  layout_to_json fig !! "height" = Some (VInt (layout_height fig)).
Proof.
  unfold layout_to_json. destruct (layout_title_text fig).
  - rewrite lookup_insert_ne by done. apply lookup_insert_eq.
  - apply lookup_insert_eq.
Qed.


(** The height that travels in a figure message is the height of the
    figure that was serialized. *)
Lemma payload_height_figure env b v fig ex cmd :
  payload_height (figure_message env b v fig ex cmd)
  = Some (VInt (layout_height fig)).
Proof.
  unfold payload_height. cbn [get_path].
  rewrite figure_message_body, figure_json_data_layout.
  rewrite lookup_insert_ne by done. now rewrite layout_to_json_height.
Qed.





End FigureFacts.

(* ===================================================================== *)
(** * The identity of the user in the telemetry record *)
(* ===================================================================== *)

Module TelemetryFacts.

Import Py Charting BackendFacts DispatchFacts WireFacts FigureFacts.

Lemma has_identity_json_update cs i th cmd v :
  truthy_opt (user_uuid cs) = true \/ i = false ->
  has_identity (json_update cs (posthog_record cs i) th cmd v) = i.
Proof.
  intros H. unfold has_identity.
  replace (json_update cs (posthog_record cs i) th cmd v !! "posthog")
    with (Some (VDict (posthog_record cs i))) by reflexivity.
  destruct i; unfold posthog_record, update.
  - rewrite lookup_union_l by reflexivity.
    rewrite lookup_insert_eq. reflexivity.
  - reflexivity.
Qed.

Lemma identifies_true b :
  identifies b = true ->
  truthy_opt (user_uuid (charting_settings b)) = true /\ logged_in b = false.
Proof.
  unfold identifies. intros H.
  apply andb_true_iff in H as [H1 H2]. apply andb_true_iff in H1 as [_ H1].
  split; [exact H1|]. now destruct (logged_in b).
Qed.

Lemma identifies_logged_in b : logged_in b = true -> identifies b = false.
Proof. unfold identifies. intros ->. now rewrite andb_false_r. Qed.

Lemma has_identity_update b th cmd v :
  has_identity (json_update (charting_settings b)
                  (posthog_record (charting_settings b) (identifies b))
                  th cmd v)
  = identifies b.
Proof.
  apply has_identity_json_update.
  destruct (identifies b) eqn:E; [left; now apply identifies_true | now right].
Qed.

Lemma has_identity_same body upd :
  body !! "posthog" = upd !! "posthog" -> has_identity body = has_identity upd.
Proof. unfold has_identity. now intros ->. Qed.

Lemma json_update_posthog cs ph th cmd v :
  json_update cs ph th cmd v !! "posthog" = Some (VDict ph).
Proof. reflexivity. Qed.

Lemma has_identity_figure_body fig b th cmd v bg :
  has_identity (figure_json_data fig
                  (json_update (charting_settings b)
                     (posthog_record (charting_settings b) (identifies b))
                     th cmd v) bg)
  = identifies b.
Proof.
  rewrite <- (has_identity_update b th cmd v) at 2.
  apply has_identity_same. rewrite json_update_posthog.
  unfold figure_json_data, update.
  rewrite (lookup_union_r (json_update _ _ _ _ _)) by reflexivity.
  unfold to_json. rewrite lookup_insert_eq.
  rewrite lookup_insert_ne by done.
  apply lookup_union_Some_l, json_update_posthog.
Qed.

Lemma has_identity_table_body df title source b th cmd v :
  has_identity (table_json_data df title source
                  (json_update (charting_settings b)
                     (posthog_record (charting_settings b) (identifies b))
                     th cmd v))
  = identifies b.
Proof.
  rewrite <- (has_identity_update b th cmd v) at 2.
  apply has_identity_same. rewrite json_update_posthog.
  unfold table_json_data, update.
  apply lookup_union_Some_l, lookup_union_Some_l, json_update_posthog.
Qed.

Lemma body_of_figure_message env b v fig ex cmd :
  body_of (figure_message env b v fig ex cmd)
  = Some (figure_json_data fig
            (json_update (charting_settings b)
               (posthog_record (charting_settings b) (identifies b))
               None cmd v)
            (paper_bg_of (charting_settings b))).
Proof. unfold body_of. now rewrite figure_message_body. Qed.

Lemma body_of_table_message env b v df title source theme cmd width :
  body_of (table_message env b v df title source theme cmd width)
  = Some (table_json_data df (clean_title title) source
            (json_update (charting_settings b)
               (posthog_record (charting_settings b) (identifies b))
               (Some (or_str theme "dark")) cmd v)).
Proof.
  unfold body_of, table_message, table_outgoing, update.
  rewrite lookup_union_r by reflexivity.
  rewrite lookup_insert_ne by done. now rewrite lookup_insert_eq.
Qed.

Lemma body_of_url_message env b url title width height :
  body_of (url_message env b url title width height) = None.
Proof.
  unfold body_of, url_message, url_outgoing, update.
  rewrite lookup_union_r by reflexivity.
  rewrite lookup_union_r by reflexivity. reflexivity.
Qed.

Lemma call_ok_quiet st st' :
  logged_in (self st') = logged_in (self st) ->
  (outgoing (self st') = outgoing (self st) \/ outgoing (self st') = []) ->
  call_ok st (omap body_of (enqueued st st')) st'.
Proof.
  intros Hl Ho. split; [congruence|].
  assert (E : enqueued st st' = []).
  { destruct Ho as [Ho|Ho]; [now apply enqueued_same|].
    unfold enqueued. rewrite Ho. now destruct (List.length _). }
  now rewrite E.
Qed.

Lemma call_ok_one st st' body :
  logged_in (self st') = logged_in (self st) || identifies (self st) ->
  has_identity body = identifies (self st) ->
  call_ok st [body] st'.
Proof.
  intros Hl Hb. split.
  - intros H. rewrite Hl, H. reflexivity.
  - cbn [List.filter]. rewrite Hb.
    destruct (identifies (self st)) eqn:E; [|exact I].
    apply identifies_true in E as [_ E]. rewrite Hl, E. split; reflexivity.
Qed.

Lemma call_ok_none st st' :
  logged_in (self st') = logged_in (self st) || identifies (self st) ->
  call_ok st [] st'.
Proof.
  intros Hl. split; [|exact I]. intros H. rewrite Hl, H. reflexivity.
Qed.

Lemma exec_ok env c st :
  let '(rs, st') := exec env c st in call_ok st rs st'.
Proof.
  destruct c; cbn [exec].
  - apply call_ok_quiet; [reflexivity | now left].
  - apply call_ok_quiet; [reflexivity | now right].
  - apply call_ok_quiet; [|left]; run_m;
      destruct (path_exists env (plotly_html (self st))); reflexivity.
  - apply call_ok_quiet; [|left]; run_m;
      destruct (path_exists env (table_html (self st))); reflexivity.
  - apply call_ok_quiet; [|left]; run_m;
      destruct (path_exists env (icon_path env)); reflexivity.
  - rewrite get_json_update_eq.
    destruct (flagged_fields st) as (Hl & _).
    destruct (PyWry_version st) as [v|].
    + apply call_ok_one; [exact Hl | apply has_identity_update].
    + apply call_ok_none, Hl.
  - pose proof (send_figure_spec env appears fig export_image
                  command_location st) as H.
    destruct (send_figure env appears fig export_image command_location st)
      as [[r fig'] st']. cbv zeta in H. cbn [snd].
    destruct (fst (check_backend env st)) as [x|e].
    + destruct H as (_ & Hl & H).
      destruct (PyWry_version (snd (check_backend env st))) as [v|];
        [destruct (path_exists env (plotly_html (self st)))|].
      * destruct H as (Ho & _). rewrite (enqueued_one _ _ _ Ho).
        cbn [omap list_omap]. rewrite body_of_figure_message.
        apply call_ok_one; [exact Hl | apply has_identity_figure_body].
      * destruct H as (Ho & _). rewrite (enqueued_same _ _ Ho).
        apply call_ok_none, Hl.
      * destruct H as (Ho & _). rewrite (enqueued_same _ _ Ho).
        apply call_ok_none, Hl.
    + destruct H as (_ & _ & Ho & Hl). apply call_ok_quiet; auto.
  - rewrite process_image_state. apply call_ok_quiet; auto.
  - pose proof (send_table_spec env df_table title source theme
                  command_location st) as H.
    destruct (send_table env df_table title source theme command_location st)
      as [r st']. cbv zeta in H. cbn [snd].
    destruct (fst (check_backend env st)) as [x|e];
      [destruct (table_width df_table (WIDTH (self st))) as [width|e]|].
    + destruct H as (Hl & H).
      destruct (PyWry_version (snd (check_backend env st))) as [v|];
        [destruct (path_exists env (table_html (self st)))|].
      * destruct H as (Ho & _). rewrite (enqueued_one _ _ _ Ho).
        cbn [omap list_omap]. rewrite body_of_table_message.
        apply call_ok_one; [exact Hl | apply has_identity_table_body].
      * destruct H as (Ho & _). rewrite (enqueued_same _ _ Ho).
        apply call_ok_none, Hl.
      * destruct H as (Ho & _). rewrite (enqueued_same _ _ Ho).
        apply call_ok_none, Hl.
    + destruct H as (_ & Ho & Hl). apply call_ok_quiet; auto.
    + destruct H as (_ & Ho & Hl). apply call_ok_quiet; auto.
  - pose proof (send_url_spec env url title width height st) as H.
    destruct (send_url env url title width height st) as [r st']. cbn [snd].
    destruct (fst (check_backend env st)) as [x|e].
    + destruct H as (_ & Ho & Hl). rewrite (enqueued_one _ _ _ Ho).
      cbn [omap list_omap]. rewrite body_of_url_message.
      split; [congruence | exact I].
    + destruct H as (_ & Ho & Hl). apply call_ok_quiet; auto.
  - rewrite get_kwargs_eq. apply call_ok_quiet; auto.
  - destruct (check_backend_self env st) as [E|E];
      apply call_ok_quiet; rewrite E; auto.
  - apply call_ok_quiet; [|left]; destruct reset; reflexivity.
Qed.

Lemma telemetry_bound env calls :
  forall st,
    (List.length (List.filter has_identity (telemetry env calls st))
     <= if logged_in (self st) then 0 else 1)%nat.
Proof.
  induction calls as [|c calls IH]; intros st; cbn [telemetry].
  - cbn. destruct (logged_in (self st)); lia.
  - pose proof (exec_ok env c st) as H.
    destruct (exec env c st) as [rs st']. destruct H as (Hkeep & Hrs).
    rewrite List.filter_app, List.length_app. specialize (IH st').
    destruct (List.filter has_identity rs) as [|x [|y l]]; [| |destruct Hrs].
    + destruct (logged_in (self st)); [rewrite Hkeep in IH by reflexivity|];
        cbn [List.length]; [lia|]. destruct (logged_in (self st')); lia.
    + destruct Hrs as (E0 & E1). rewrite E0. rewrite E1 in IH.
      cbn [List.length]. lia.
Qed.

(** C10, as the code has it.  In any sequence of calls on the
    instance, at most one telemetry record names the user, and none
    does once [logged_in] is set.  [get_json_update] puts the user id
    and the e-mail into the record when log collection is on, a user
    uuid is set and [logged_in] is not, and sets [logged_in] then; no
    method takes the flag back.  [__init__] does: it sets [logged_in]
    to [False] whenever it runs. *)
Theorem identity_in_at_most_one_record env :
  (forall calls st,
      (List.length (List.filter has_identity (telemetry env calls st))
       <= if logged_in (self st) then 0 else 1)%nat)
  /\ (forall cmd theme st,
        let '(r, st') := get_json_update cmd theme st in
        logged_in (self st') = logged_in (self st) || identifies (self st)
        /\ match r with
           | Ok upd => has_identity upd = identifies (self st)
           | Raise _ => PyWry_version st = None
           end)
  /\ (forall c st,
        if logged_in (self st)
        then logged_in (self (snd (exec env c st))) = true
        else True)
  /\ (forall v s d r n, logged_in (Backend_init env v s d r n) = false).
Proof.
  repeat apply conj.
  - intros calls st. apply telemetry_bound.
  - intros cmd theme st. rewrite get_json_update_eq.
    destruct (flagged_fields st) as (Hl & _). split; [exact Hl|].
    destruct (PyWry_version st); [apply has_identity_update | reflexivity].
  - intros c st. destruct (logged_in (self st)) eqn:E; [|exact I].
    pose proof (exec_ok env c st) as H.
    destruct (exec env c st) as [rs st']. destruct H as (H & _). now apply H.
  - reflexivity.
Qed.

(** A figure is sent, the class is constructed a second time, and a
    figure is sent again: both messages name the user. *)
Lemma identity_sent_again_after_second_construction :
  let send :=
    OpCall 0 (CallSendFigure (fun _ => false) (Samples.figure None) None None) in
  let construct :=
    OpConstruct Samples.settings true 30 "OpenBB Terminal" in
  let p0 := start_of_process (Some Samples.v0_5_13) in
  let p2 := run Samples.terminal Samples.settings [construct; send] p0 in
  let p4 := run Samples.terminal Samples.settings [construct; send] p2 in
  (List.length (heap p4) = 1)%nat
  /\ List.map has_identity (omap body_of (queue_at (heap p2) 0)) = [true]
  /\ List.map has_identity (omap body_of (queue_at (heap p4) 0)) = [true].
Proof. vm_compute. repeat split. Qed.

End TelemetryFacts.

(* ===================================================================== *)
(** * The window width of a table *)
(* ===================================================================== *)

Module TableFacts.

Import Py PyNum Charting.

Local Open Scope Z_scope.

(** ** Floor and truncation of a finite float *)

Lemma neg_pos m : Z.neg m = - Z.pos m.
Proof. reflexivity. Qed.

Lemma integral_mod m k :
  0 < k ->
  (Z.shiftl (Z.shiftr (Z.pos m) k) k =? Z.pos m) = true
  <-> Z.pos m mod 2 ^ k = 0.
Proof.
  intros Hk. rewrite Z.eqb_eq, Z.shiftl_mul_pow2, Z.shiftr_div_pow2 by lia.
  assert (Hd : 0 < 2 ^ k) by (apply Z.pow_pos_nonneg; lia).
  pose proof (Z.div_mod (Z.pos m) (2 ^ k) ltac:(lia)) as H.
  split; intros E; nia.
Qed.

(** The floor of a finite float is its truncation, but for a negative
    float that is no whole number, where it is one less. *)
Lemma floor_and_trunc (s : bool) (m : positive) (e : Z) :
  let t := if s then - scaled false m e else scaled false m e in
  scaled s m e = if s && negb (integral m e) then t - 1 else t.
Proof.
  destruct s; cbn [andb]; [|reflexivity].
  unfold scaled, integral. destruct (0 <=? e) eqn:E.
  - cbn [negb]. apply Z.leb_le in E.
    rewrite !Z.shiftl_mul_pow2, neg_pos by lia. ring.
  - apply Z.leb_gt in E.
    assert (Hd : 0 < 2 ^ (- e)) by (apply Z.pow_pos_nonneg; lia).
    destruct (Z.shiftl (Z.shiftr (Z.pos m) (- e)) (- e) =? Z.pos m) eqn:I;
      cbn [negb]; rewrite !Z.shiftr_div_pow2, neg_pos by lia.
    + apply (integral_mod m (- e)) in I; [|lia].
      rewrite Z.div_opp_l_z; [reflexivity | lia | exact I].
    + rewrite Z.div_opp_l_nz; [reflexivity | lia |].
      intros Hm. apply (integral_mod m (- e)) in Hm; [|lia]. congruence.
Qed.

(** [int(min(f, w))] for a float [f] that has an integer part [t] and
    an integer [w] is the smaller of [t] and [w]. *)
Lemma int_of_min f w t :
  float_trunc f = Ok t ->
  py_int (py_min (Float f) (Int w)) = Ok (Z.min t w).
Proof.
  unfold py_min, lt, int_lt_float, py_int, float_trunc.
  destruct (Prim2SF f) as [s|s| |s m e] eqn:E; intros H; inversion H; subst;
    clear H.
  - destruct (w <? 0) eqn:L.
    + apply Z.ltb_lt in L. f_equal. lia.
    + apply Z.ltb_ge in L. unfold float_trunc. rewrite E. f_equal. lia.
  - pose proof (floor_and_trunc s m e) as F. cbv zeta in F.
    set (t := if s then - scaled false m e else scaled false m e) in *.
    destruct ((w <? scaled s m e)
              || (w =? scaled s m e) && negb (integral m e)) eqn:L.
    + f_equal. apply orb_true_iff in L as [L|L].
      * apply Z.ltb_lt in L.
        destruct (s && negb (integral m e)); lia.
      * apply andb_true_iff in L as [L1 L2]. apply Z.eqb_eq in L1.
        rewrite L2, andb_true_r in F. destruct s; lia.
    + unfold float_trunc. rewrite E. fold t. f_equal.
      apply orb_false_iff in L as [L1 L2]. apply Z.ltb_ge in L1.
      apply andb_false_iff in L2 as [L2|L2].
      * apply Z.eqb_neq in L2. destruct (s && negb (integral m e)); lia.
      * rewrite L2, andb_false_r in F. lia.
Qed.

(** ** Column widths *)

Lemma fold_max_ge l : forall a, a <= List.fold_left Z.max l a.
Proof.
  induction l as [|x l IH]; intros a; cbn; [lia|].
  specialize (IH (Z.max a x)). lia.
Qed.

Lemma fold_max_all l :
  forall a, Forall (fun x => x <= List.fold_left Z.max l a) l.
Proof.
  induction l as [|x l IH]; intros a; cbn; constructor.
  - pose proof (fold_max_ge l (Z.max a x)). lia.
  - apply IH.
Qed.

Lemma fold_max_in l :
  forall a, List.fold_left Z.max l a = a \/ In (List.fold_left Z.max l a) l.
Proof.
  induction l as [|x l IH]; intros a; cbn; [now left|].
  destruct (IH (Z.max a x)) as [H|H]; [|now right; right].
  rewrite H. destruct (Z.max_spec a x) as [[_ ->]|[_ ->]]; auto.
Qed.

Lemma fold_min_le l : forall a, List.fold_left Z.min l a <= a.
Proof.
  induction l as [|x l IH]; intros a; cbn; [lia|].
  specialize (IH (Z.min a x)). lia.
Qed.

(** The width of a column is the least number that is no less than the
    length of its name and the length of each of its cells. *)
Lemma column_width_is_max col :
  strlen (col_name col) <= column_width col
  /\ Forall (fun v => strlen v <= column_width col) (col_values col)
  /\ (column_width col = strlen (col_name col)
      \/ Exists (fun v => column_width col = strlen v) (col_values col)).
Proof.
  unfold column_width, str_len_max.
  destruct (col_values col) as [|v vs]; [repeat split; auto; lia|].
  set (m := List.fold_left Z.max (List.map strlen vs) (strlen v)).
  assert (Hv : strlen v <= m) by apply fold_max_ge.
  assert (Hvs : Forall (fun x => x <= m) (List.map strlen vs))
    by apply fold_max_all.
  repeat split.
  - lia.
  - constructor; [lia|]. rewrite Forall_map in Hvs.
    eapply Forall_impl; [exact Hvs|]. cbn. intros; lia.
  - destruct (Z.max_spec (strlen (col_name col)) m) as [[_ ->]|[_ ->]];
      [right | now left].
    destruct (fold_max_in (List.map strlen vs) (strlen v)) as [H|H];
      fold m in H.
    + apply Exists_cons_hd. exact H.
    + apply Exists_cons_tl, Exists_exists. apply in_map_iff in H as (x & Hx & Hin).
      exists x. split; [now apply list_elem_of_In | now symmetry].
Qed.

(** ** The float arithmetic, checked on the whole range *)

Lemma all_from_spec n p :
  forall z, all_from n z p = true ->
  forall x, z <= x < z + Z.of_nat n -> p x = true.
Proof.
  induction n as [|n IH]; intros z H x Hx; [lia|].
  cbn [all_from] in H. apply andb_true_iff in H as [H0 H1].
  destruct (Z.eq_dec x z) as [->|Hne]; [exact H0|].
  apply (IH (z + 1) H1). lia.
Qed.

Lemma inflate_checked :
  all_from (Z.to_nat (max_chars + 1)) 0
    (fun d => all_from (Z.to_nat (max_chars + 1)) 0 (inflate_ok d)) = true.
Proof. vm_cast_no_check (@eq_refl bool true). Qed.

Lemma pixels_checked :
  all_from (Z.to_nat (max_sum + 1)) 0 pixels_ok = true.
Proof. vm_cast_no_check (@eq_refl bool true). Qed.

(** [int(x + d * 0.2)] in binary64 is [x] plus the integer part of a
    fifth of [d]. *)
Lemma inflate_exact d x :
  0 <= d <= max_chars -> 0 <= x <= max_chars ->
  inflate d x = Ok (x + d / 5).
Proof.
  intros Hd Hx.
  pose proof (all_from_spec _ _ 0 inflate_checked d) as H1.
  cbv beta in H1. rewrite Z2Nat.id in H1 by (unfold max_chars; lia).
  specialize (H1 ltac:(lia)).
  pose proof (all_from_spec _ _ 0 H1 x) as H2.
  rewrite Z2Nat.id in H2 by (unfold max_chars; lia).
  specialize (H2 ltac:(lia)). unfold inflate_ok in H2.
  destruct (inflate d x) as [r|]; [|discriminate].
  apply Z.eqb_eq in H2. now subst.
Qed.

(** [int(s * 9.7)] in binary64 is the integer part of 9.7 times [s],
    or one less. *)
Lemma pixels_exact s :
  0 <= s <= max_sum ->
  exists p, float_trunc (mul_float s c_9_7) = Ok p
            /\ 97 * s / 10 - 1 <= p <= 97 * s / 10.
Proof.
  intros Hs.
  pose proof (all_from_spec _ _ 0 pixels_checked s) as H.
  rewrite Z2Nat.id in H by (unfold max_sum; lia).
  specialize (H ltac:(lia)). unfold pixels_ok in H.
  destruct (float_trunc (mul_float s c_9_7)) as [p|]; [|discriminate].
  exists p. split; [reflexivity|]. lia.
Qed.

(** ** From the columns to the window *)

Lemma fold_max_bound b l :
  Forall (fun x => x <= b) l -> forall a, a <= b -> List.fold_left Z.max l a <= b.
Proof.
  induction 1 as [|x l Hx _ IH]; intros a Ha; cbn; [exact Ha|].
  apply IH. lia.
Qed.

Lemma fold_min_bound b l :
  Forall (fun x => b <= x) l -> forall a, b <= a -> b <= List.fold_left Z.min l a.
Proof.
  induction 1 as [|x l Hx _ IH]; intros a Ha; cbn; [exact Ha|].
  apply IH. lia.
Qed.

Lemma spread_of_bounds b l :
  0 <= b -> Forall (fun x => 0 <= x <= b) l -> 0 <= spread_of l <= b.
Proof.
  intros Hb H. destruct l as [|x l]; cbn [spread_of]; [lia|].
  apply Forall_cons in H as [Hx Hl]. unfold list_max, list_min.
  pose proof (fold_max_ge l x).
  pose proof (fold_min_le l x).
  pose proof (fold_max_bound b l
                (Forall_impl _ _ _ Hl (fun y Hy => proj2 Hy)) x (proj2 Hx)).
  pose proof (fold_min_bound 0 l
                (Forall_impl _ _ _ Hl (fun y Hy => proj1 Hy)) x (proj1 Hx)).
  lia.
Qed.

Lemma sequence_map {A} (f : A -> Outcome Z) (g : A -> Z) l :
  Forall (fun x => f x = Ok (g x)) l ->
  sequence (List.map f l) = Ok (List.map g l).
Proof.
  induction 1 as [|x l Hx _ IH]; cbn; [reflexivity|].
  now rewrite Hx, IH.
Qed.

(** The second list comprehension, in integers. *)
Lemma inflated_exact l :
  Forall (fun x => 0 <= x <= max_chars) l ->
  inflated l = Ok (List.map (fun x => x + spread_of l / 5) l).
Proof.
  intros H. unfold inflated. apply sequence_map.
  pose proof (spread_of_bounds max_chars l ltac:(unfold max_chars; lia) H).
  eapply Forall_impl; [exact H|]. cbn. intros x Hx.
  now apply inflate_exact.
Qed.

Lemma fold_add_acc l : forall a, List.fold_left Z.add l a = a + list_sum l.
Proof.
  unfold list_sum. induction l as [|x l IH]; intros a; cbn [List.fold_left];
    [lia|].
  rewrite (IH (a + x)), (IH (0 + x)). lia.
Qed.

Lemma list_sum_cons x l : list_sum (x :: l) = x + list_sum l.
Proof. unfold list_sum at 1. cbn. apply fold_add_acc. Qed.

Lemma list_sum_bounds b l :
  Forall (fun x => 0 <= x <= b) l ->
  0 <= list_sum l <= b * Z.of_nat (List.length l).
Proof.
  induction 1 as [|x l Hx _ IH]; [cbn; lia|].
  rewrite list_sum_cons. cbn [List.length]. lia.
Qed.

Lemma column_width_nonneg col : 0 <= column_width col.
Proof.
  destruct (column_width_is_max col) as (H & _).
  unfold strlen in H. lia.
Qed.

Lemma columnwidth_nonneg df : Forall (fun x => 0 <= x) (columnwidth df).
Proof.
  unfold columnwidth. apply Forall_map, Forall_forall.
  intros col _. apply column_width_nonneg.
Qed.

(** The last line of the computation: the integer part of the product,
    then the cap, then the floor. *)
Lemma window_width_eq l W p :
  float_trunc (mul_float (list_sum l) c_9_7) = Ok p ->
  window_width l W = Ok (Z.max (Z.min p (W + 100)) 800).
Proof.
  intros H. unfold window_width. now rewrite (int_of_min _ _ _ H).
Qed.




End TableFacts.

(* ===================================================================== *)
(** * More on the export watcher *)
(* ===================================================================== *)

Module WatcherMore.

Import Py Charting Frames WatcherFacts DispatchFacts.

Lemma fruitless_no_open k n : Forall (fun e => is_open e = false) (fruitless k n).
Proof.
  unfold fruitless. apply Forall_forall. intros e He.
  apply list_elem_of_In, in_flat_map in He as (i & _ & Hin).
  destruct Hin as [<-|[<-|[]]]; reflexivity.
Qed.








End WatcherMore.

(* ===================================================================== *)
(** * What the calls keep *)
(* ===================================================================== *)

Module FrameFacts.

Import Py Charting Frames BackendFacts DispatchFacts.

Lemma same_config_refl b : same_config b b.
Proof. repeat split. Qed.

Lemma same_config_trans a b c :
  same_config a b -> same_config b c -> same_config a c.
Proof.
  unfold same_config. intros (H1 & H2 & H3 & H4 & H5 & H6) (K1 & K2 & K3 & K4 & K5 & K6).
  repeat split; congruence.
Qed.

Lemma keeps_core_refl st : keeps_core st st.
Proof.
  split; [apply same_config_refl|]. split; [now left|].
  split; [exists []; now rewrite app_nil_r|]. split; auto.
Qed.

Lemma keeps_core_trans a b c :
  keeps_core a b -> keeps_core b c -> keeps_core a c.
Proof.
  intros (H1 & H2 & (w1 & H3) & H4 & H5) (K1 & K2 & (w2 & K3) & K4 & K5).
  split; [eapply same_config_trans; eauto|].
  split; [destruct K2 as [K2|[K2|K2]]; rewrite K2; auto|].
  split; [exists (w1 ++ w2)%list; now rewrite K3, H3, app_assoc|].
  split; auto.
Qed.

Lemma keeps_queue_refl st : keeps_queue st st.
Proof. split; [reflexivity|]. exists []. now rewrite app_nil_r. Qed.

Lemma keeps_queue_trans a b c :
  keeps_queue a b -> keeps_queue b c -> keeps_queue a c.
Proof.
  intros (H1 & n1 & H2) (K1 & n2 & K2). split; [congruence|].
  exists (n1 ++ n2)%list. now rewrite K2, H2, app_assoc.
Qed.

Lemma keeps_queue_eq st st' :
  outgoing (self st') = outgoing (self st) ->
  init_engine (self st') = init_engine (self st) ->
  keeps_queue st st'.
Proof. intros Ho Hi. split; [exact Hi|]. exists []. now rewrite app_nil_r. Qed.

Lemma evolves_refl st : evolves st st.
Proof. split; [apply keeps_core_refl | apply keeps_queue_refl]. Qed.

Lemma evolves_trans a b c : evolves a b -> evolves b c -> evolves a c.
Proof.
  intros [H1 H2] [K1 K2].
  split; [eapply keeps_core_trans | eapply keeps_queue_trans]; eauto.
Qed.

(** ** The building blocks *)

Lemma stable_ret {A} (a : A) : stable (ret a).
Proof. intros st. apply evolves_refl. Qed.

Lemma stable_raise {A} e : stable (@raise A e).
Proof. intros st. apply evolves_refl. Qed.

Lemma stable_get_self : stable get_self.
Proof. intros st. apply evolves_refl. Qed.

Lemma stable_bind {A B} (m : M A) (k : A -> M B) :
  stable m -> (forall a, stable (k a)) -> stable (bind m k).
Proof.
  intros Hm Hk st. unfold bind. specialize (Hm st).
  destruct (m st) as [[a|e] st1]; cbn [snd] in *; [|exact Hm].
  eapply evolves_trans; [exact Hm | apply Hk].
Qed.

Lemma stable_warn msg : stable (warn msg).
Proof.
  intros st. split; [|now apply keeps_queue_eq].
  split; [repeat split|]. split; [now left|].
  split; [now exists [msg]|]. split; auto.
Qed.

Lemma stable_set_retries n : n = 0%Z \/ n = 50%Z -> stable (set_self (with_max_retries n)).
Proof.
  intros Hn st. split; [|now apply keeps_queue_eq].
  split; [repeat split|]. split; [cbn; tauto|].
  split; [exists []; cbn; now rewrite app_nil_r|]. split; auto.
Qed.

Lemma stable_set_dimensions w h : stable (set_self (with_dimensions w h)).
Proof.
  intros st. split; [|now apply keeps_queue_eq].
  split; [repeat split|]. split; [now left|].
  split; [exists []; cbn; now rewrite app_nil_r|]. split; auto.
Qed.

Lemma stable_set_logged_in : stable (set_self (with_logged_in true)).
Proof.
  intros st. split; [|now apply keeps_queue_eq].
  split; [repeat split|]. split; [now left|].
  split; [exists []; cbn; now rewrite app_nil_r|]. split; auto.
Qed.

Lemma stable_send_outgoing msg : stable (send_outgoing msg).
Proof.
  intros st. split.
  - split; [repeat split|]. split; [now left|].
    split; [exists []; cbn; now rewrite app_nil_r|]. split; auto.
  - split; [reflexivity|]. now exists [msg].
Qed.

Lemma stable_dunder_version : stable dunder_version.
Proof.
  intros st. unfold dunder_version.
  destruct (PyWry_version st); apply evolves_refl.
Qed.

Lemma stable_process_image env appears p : stable (process_image env appears p).
Proof. intros st. rewrite process_image_state. apply evolves_refl. Qed.

(** One step of the decomposition of a method. *)
Ltac stable_step :=
  first
    [ assumption
    | apply stable_ret | apply stable_raise | apply stable_get_self
    | apply stable_warn | apply stable_set_dimensions
    | apply stable_set_logged_in | apply stable_send_outgoing
    | apply stable_dunder_version | apply stable_process_image
    | apply stable_set_retries; tauto
    | apply stable_bind; [|intros ?]
    | match goal with
      | |- stable (if ?c then _ else _) => destruct c
      | |- stable (match ?x with _ => _ end) => destruct x
      end ].

Ltac stable_all := cbv zeta; repeat stable_step.

Lemma stable_set_window_dimensions : stable set_window_dimensions.
Proof. unfold set_window_dimensions. stable_all. Qed.

Lemma stable_get_plotly_html env : stable (get_plotly_html env).
Proof.
  pose proof stable_set_window_dimensions.
  unfold get_plotly_html. stable_all.
Qed.

Lemma stable_get_table_html env : stable (get_table_html env).
Proof.
  pose proof stable_set_window_dimensions.
  unfold get_table_html. stable_all.
Qed.

Lemma stable_get_window_icon env : stable (get_window_icon env).
Proof. unfold get_window_icon. stable_all. Qed.

Lemma stable_get_kwargs env title : stable (get_kwargs env title).
Proof.
  pose proof (stable_get_window_icon env).
  unfold get_kwargs. stable_all.
Qed.

Lemma stable_get_json_update cmd theme : stable (get_json_update cmd theme).
Proof. unfold get_json_update. stable_all. Qed.

Lemma stable_close reset : stable (close reset).
Proof. unfold close. stable_all. Qed.

Lemma stable_check_backend env : stable (check_backend env).
Proof.
  intros st. unfold check_backend. run_m.
  assert (Hlow : forall v,
             (forall u, PyWry_version st = Some u -> v = Some u) ->
             evolves st {| self := with_max_retries 0 (self st);
                           PyWry_version := v;
                           warned := (warned st ++ [version_message])%list |}).
  { intros v Hv. split; [|now apply keeps_queue_eq].
    split; [repeat split|]. split; [cbn; tauto|].
    split; [now exists [version_message]|]. split; auto. }
  assert (Hset : forall v, PyWry_version st = None ->
             evolves st {| self := self st; PyWry_version := Some v;
                           warned := warned st |}).
  { intros v E. split; [|now apply keeps_queue_eq].
    split; [repeat split|]. split; [now left|].
    split; [exists []; cbn; now rewrite app_nil_r|]. split; auto.
    intros v0 H. rewrite E in H. discriminate. }
  destruct (isatty (self st)); cbn [negb]; [|apply evolves_refl].
  destruct (PyWry_version st) as [v|] eqn:Ev.
  - destruct (version_lt v v0_5_12); cbn.
    + apply Hlow. congruence.
    + destruct (version_gt v v0_5_12); cbn;
        [|destruct (probe env)]; cbn; apply evolves_refl.
  - destruct (pywry_import env) as [v|]; cbn.
    + destruct (version_lt v v0_5_12); cbn.
      * apply Hlow. congruence.
      * destruct (version_gt v v0_5_12); cbn; [|destruct (probe env)]; cbn;
          now apply Hset.
    + apply Hlow. congruence.
Qed.

Lemma stable_dispatch_figure env appears fig ex cmd :
  stable (dispatch_figure env appears fig ex cmd).
Proof.
  pose proof (stable_get_json_update cmd None).
  pose proof (stable_get_plotly_html env).
  pose proof (stable_get_kwargs env cmd).
  unfold dispatch_figure. stable_all.
Qed.

Lemma stable_send_table env df title source theme cmd :
  stable (send_table env df title source theme cmd).
Proof.
  pose proof (stable_check_backend env).
  pose proof (stable_get_json_update cmd (Some (or_str theme "dark"))).
  pose proof (stable_get_table_html env).
  pose proof (stable_get_kwargs env cmd).
  unfold send_table. stable_all.
Qed.

Lemma stable_send_url env url title width height :
  stable (send_url env url title width height).
Proof.
  pose proof (stable_check_backend env).
  pose proof (stable_get_kwargs env (Some title)).
  unfold send_url. stable_all.
Qed.

Lemma evolves_send_figure env appears fig ex cmd st :
  evolves st (snd (send_figure env appears fig ex cmd st)).
Proof.
  unfold send_figure. pose proof (stable_check_backend env st) as H.
  destruct (check_backend env st) as [[x|e] st1]; cbn [snd] in *; [|exact H].
  pose proof (stable_dispatch_figure env appears (touch_figure fig) ex cmd st1)
    as H1.
  destruct (dispatch_figure env appears (touch_figure fig) ex cmd st1)
    as [r st2]. cbn [snd] in *. eapply evolves_trans; eauto.
Qed.

(** A call that is not [get_pending]. *)
Lemma exec_evolves env c st :
  is_get_pending c = false -> evolves st (snd (exec env c st)).
Proof.
  destruct c; cbn [exec is_get_pending snd]; intros Hc; try discriminate.
  - apply stable_set_window_dimensions.
  - apply stable_get_plotly_html.
  - apply stable_get_table_html.
  - apply stable_get_window_icon.
  - pose proof (stable_get_json_update cmd_loc theme st) as H.
    destruct (get_json_update cmd_loc theme st) as [[u|e] st']; exact H.
  - apply evolves_send_figure.
  - apply stable_process_image.
  - apply stable_send_table.
  - apply stable_send_url.
  - apply stable_get_kwargs.
  - apply stable_check_backend.
  - apply stable_close.
Qed.

Lemma exec_keeps_core env c st : keeps_core st (snd (exec env c st)).
Proof.
  destruct (is_get_pending c) eqn:E; [|now apply exec_evolves].
  destruct c; try discriminate. cbn.
  split; [repeat split|]. split; [now left|].
  split; [exists []; cbn; now rewrite app_nil_r|]. split; auto.
Qed.

Lemma run_calls_keeps_core env calls :
  forall st, keeps_core st (run_calls env calls st).
Proof.
  unfold run_calls. induction calls as [|c calls IH]; intros st; cbn.
  - apply keeps_core_refl.
  - eapply keeps_core_trans; [apply exec_keeps_core | apply IH].
Qed.

Lemma run_calls_keeps_queue env calls :
  forall st,
    existsb is_get_pending calls = false ->
    keeps_queue st (run_calls env calls st).
Proof.
  unfold run_calls. induction calls as [|c calls IH]; intros st H; cbn.
  - apply keeps_queue_refl.
  - cbn in H. apply orb_false_iff in H as [Hc Hr].
    eapply keeps_queue_trans; [apply (exec_evolves env c st Hc) | now apply IH].
Qed.

(** X3.  Whatever is called on the instance, in whatever order, the
    settings, the flag [isatty], the paths of the two templates and
    the arguments given to PyWry stay as [__init__] left them. *)
Theorem calls_keep_the_configuration env calls st :
  let b := self st in
  let b' := self (run_calls env calls st) in
  charting_settings b' = charting_settings b
  /\ isatty b' = isatty b
  /\ plotly_html b' = plotly_html b
  /\ table_html b' = table_html b
  /\ daemon b' = daemon b
  /\ proc_name b' = proc_name b.
Proof.
  destruct (run_calls_keeps_core env calls st) as ((H1 & H2 & H3 & H4 & H5 & H6) & _).
  repeat split; assumption.
Qed.

(** X4.  As long as [get_pending] is not called, a message that is in the
    queue stays there, in its place and as it was queued: the calls
    only add messages at the end of [outgoing], and [init_engine] is
    not touched. *)
Theorem queued_messages_stay env calls st :
  if existsb is_get_pending calls then True
  else
    init_engine (self (run_calls env calls st)) = init_engine (self st)
    /\ exists new,
         outgoing (self (run_calls env calls st))
         = (outgoing (self st) ++ new)%list.
Proof.
  destruct (existsb is_get_pending calls) eqn:E; [exact I|].
  exact (run_calls_keeps_queue env calls st E).
Qed.

(** X5.  After any sequence of calls the retry budget is what it was, or 0,
    or 50; the warnings issued before are still there, in order; and
    the version of PyWry, once it is known, does not change. *)
Theorem retry_budget_moves_to_0_or_50 env calls st :
  let st' := run_calls env calls st in
  (max_retries (self st') = max_retries (self st)
   \/ max_retries (self st') = 0%Z \/ max_retries (self st') = 50%Z)
  /\ (exists w, warned st' = (warned st ++ w)%list)
  /\ match PyWry_version st with
     | Some v => PyWry_version st' = Some v
     | None => True
     end.
Proof.
  destruct (run_calls_keeps_core env calls st) as (_ & H2 & H3 & _ & H5).
  repeat split; try assumption.
  destruct (PyWry_version st) as [v|]; [now apply H5 | exact I].
Qed.

End FrameFacts.

(* ===================================================================== *)
(** * The queue, URLs and sessions without a terminal *)
(* ===================================================================== *)

Module QueueFacts.

Import Py Charting Frames BackendFacts DispatchFacts WireFacts.

(** The state after a message has joined the queue. *)
Lemma send_url_eq env url title width height st :
  send_url env url title width height st
  = match check_backend env st with
    | (Raise e, st1) => (Raise e, st1)
    | (Ok _, st1) =>
        (Ok tt,
         {| self := with_queues
                      (outgoing (self st1)
                       ++ [url_message env (self st1) url title width height])%list
                      (init_engine (self st1)) (self st1);
            PyWry_version := PyWry_version st1;
            warned := warned st1 |})
    end.
Proof.
  unfold send_url. unfold bind at 1.
  destruct (check_backend env st) as [[x|e] st1]; [|reflexivity].
  unfold bind at 1. rewrite get_kwargs_eq. reflexivity.
Qed.

Lemma url_message_of_checked env st url title width height :
  url_message env (self (snd (check_backend env st))) url title width height
  = url_message env (self st) url title width height.
Proof. destruct (check_backend_self env st) as [-> | ->]; reflexivity. Qed.

Lemma queues_of_checked env st :
  outgoing (self (snd (check_backend env st))) = outgoing (self st)
  /\ init_engine (self (snd (check_backend env st))) = init_engine (self st).
Proof. destruct (check_backend_self env st) as [-> | ->]; split; reflexivity. Qed.

(** X6.  Two URLs are sent and the queue is collected: [get_pending] hands
    over what was waiting, then the two messages in the order of the
    calls, then the messages of [init_engine]; it leaves both queues
    empty, and a second [get_pending] has nothing to hand over. *)
Theorem get_pending_hands_over_in_order
    env url1 title1 w1 h1 url2 title2 w2 h2 st :
  let '(r1, st1) := send_url env url1 title1 w1 h1 st in
  let '(r2, st2) := send_url env url2 title2 w2 h2 st1 in
  let '(pending, st3) := get_pending st2 in
  match r1, r2 with
  | Ok _, Ok _ =>
      pending
      = Ok (outgoing (self st)
            ++ [url_message env (self st) url1 title1 w1 h1;
                url_message env (self st) url2 title2 w2 h2]
            ++ init_engine (self st))%list
      /\ outgoing (self st3) = []
      /\ init_engine (self st3) = []
      /\ fst (get_pending st3) = Ok []
  | _, _ => True
  end.
Proof.
  rewrite send_url_eq.
  pose proof (url_message_of_checked env st url1 title1 w1 h1) as Hm1.
  pose proof (url_message_of_checked env st url2 title2 w2 h2) as Hm1'.
  destruct (queues_of_checked env st) as (Ho1 & Hi1).
  destruct (check_backend env st) as [[x|e] sa]; cbn [snd] in *; [|
    destruct (send_url env url2 title2 w2 h2 sa) as [r2 st2];
    now destruct (get_pending st2)].
  rewrite send_url_eq.
  match goal with
  | |- context [check_backend env ?s] =>
      pose proof (url_message_of_checked env s url2 title2 w2 h2) as Hm2;
      destruct (queues_of_checked env s) as (Ho2 & Hi2);
      destruct (check_backend env s) as [[y|e] sb]
  end; cbn [snd self outgoing init_engine with_queues] in *;
    [|now destruct (get_pending sb)].
  unfold get_pending. run_m.
  rewrite Ho2, Hi2, Ho1, Hi1, Hm2, Hm1.
  change (url_message env (with_queues ?o ?i ?b) url2 title2 w2 h2)
    with (url_message env b url2 title2 w2 h2).
  rewrite Hm1'.
  repeat split. now rewrite <- !app_assoc.
Qed.

Lemma lookup_url_message env b url title width height :
  let msg := url_message env b url title width height in
  msg !! "html" = Some (VStr (redirect_script url))
  /\ msg !! "width" = Some (VInt (or_int width (WIDTH b)))
  /\ msg !! "height" = Some (VInt (or_int height (HEIGHT b))).
Proof.
  unfold url_message, url_outgoing, update. split; [|split].
  - rewrite lookup_union_r by reflexivity.
    rewrite lookup_union_r by reflexivity. reflexivity.
  - apply lookup_union_Some_l. reflexivity.
  - apply lookup_union_Some_l. reflexivity.
Qed.

(** X7.  [send_url] takes the size of the window from its arguments, and
    for an argument that is missing or 0 from the attributes [WIDTH]
    and [HEIGHT] of the instance, which it does not refresh from the
    settings: on an instance that has sent neither a figure nor a
    table the window of a URL is 1400 by 762, whatever the settings
    ask for. *)
Theorem send_url_window_size env url title width height :
  (forall st,
      let '(r, st') := send_url env url title width height st in
      WIDTH (self st') = WIDTH (self st)
      /\ HEIGHT (self st') = HEIGHT (self st)
      /\ match r with
         | Ok _ =>
             exists msg,
               enqueued st st' = [msg]
               /\ msg !! "html" = Some (VStr (redirect_script url))
               /\ msg !! "width" = Some (VInt (or_int width (WIDTH (self st))))
               /\ msg !! "height"
                  = Some (VInt (or_int height (HEIGHT (self st))))
         | Raise _ => enqueued st st' = []
         end)
  /\ (forall v settings d n name w,
        let st := {| self := Backend_init env v settings d n name;
                     PyWry_version := v; warned := w |} in
        let '(r, st') := send_url env url title None (Some 0%Z) st in
        match r with
        | Ok _ =>
            exists msg,
              enqueued st st' = [msg]
              /\ msg !! "width" = Some (VInt 1400)
              /\ msg !! "height" = Some (VInt 762)
        | Raise _ => True
        end).
Proof.
  assert (H : forall w0 h0 st,
             let '(r, st') := send_url env url title w0 h0 st in
             WIDTH (self st') = WIDTH (self st)
             /\ HEIGHT (self st') = HEIGHT (self st)
             /\ match r with
                | Ok _ =>
                    exists msg,
                      enqueued st st' = [msg]
                      /\ msg !! "html" = Some (VStr (redirect_script url))
                      /\ msg !! "width"
                         = Some (VInt (or_int w0 (WIDTH (self st))))
                      /\ msg !! "height"
                         = Some (VInt (or_int h0 (HEIGHT (self st))))
                | Raise _ => enqueued st st' = []
                end).
  { intros w0 h0 st. rewrite send_url_eq.
    pose proof (url_message_of_checked env st url title w0 h0) as Hm.
    destruct (queues_of_checked env st) as (Ho & Hi).
    pose proof (check_backend_self env st) as Hs.
    destruct (check_backend env st) as [[x|e] s1]; cbn [snd] in *.
    - cbn [self WIDTH HEIGHT with_queues].
      split; [destruct Hs as [-> | ->]; reflexivity|].
      split; [destruct Hs as [-> | ->]; reflexivity|].
      exists (url_message env (self st) url title w0 h0).
      split; [apply enqueued_one; cbn; now rewrite Ho, Hm|].
      apply lookup_url_message.
    - split; [destruct Hs as [-> | ->]; reflexivity|].
      split; [destruct Hs as [-> | ->]; reflexivity|].
      now apply enqueued_same. }
  split; [intros st; apply H|].
  intros v settings d n name w st. specialize (H None (Some 0%Z) st).
  destruct (send_url env url title None (Some 0%Z) st) as [[x|e] st'];
    [|exact I].
  destruct H as (_ & _ & msg & He & _ & Hw & Hh). exists msg. auto.
Qed.

End QueueFacts.

(* ===================================================================== *)
(** * Sessions without a terminal, and the global instance *)
(* ===================================================================== *)

Module SessionFacts.

Import Py Charting Frames Sessions BackendFacts DispatchFacts WireFacts
  SingletonFacts.




Lemma step_one_object env dflt o p :
  singleton_inv p -> one_object p -> one_object (step env dflt o p).
Proof.
  unfold one_object. intros Hs Ho. destruct o as [s d r n|s|a c]; cbn [step].
  - pose proof (Backend_call_spec env s d r n p Hs) as H. cbv zeta in H.
    destruct H as (_ & _ & -> & _). right. eauto.
  - unfold create_backend. destruct (BACKEND p); [exact Ho|].
    pose proof (Backend_call_spec env
                  (match s with Some s' => s' | None => dflt end)
                  true 30 "OpenBB Terminal" p Hs) as H. cbv zeta in H.
    destruct H as (_ & _ & Hh & _).
    destruct (Backend_call _ _ _ _ _ p) as [a p1]. cbn in *.
    right. eauto.
  - unfold call. destruct (heap p !! a) as [[b|]|] eqn:E; try exact Ho.
    destruct Ho as [Ho | [b0 Ho]]; rewrite Ho in E; [discriminate|].
    destruct a as [|a]; [|discriminate]. right. cbn. rewrite Ho. cbn. eauto.
Qed.

Lemma step_BACKEND env dflt o p :
  BACKEND (step env dflt o p) = None
  <-> BACKEND p = None /\ is_create o = false.
Proof.
  destruct o as [s d r n|s|a c]; cbn [step is_create].
  - unfold Backend_call, Backend_new.
    destruct (instance p); cbn; tauto.
  - unfold create_backend. destruct (BACKEND p) eqn:E.
    + rewrite E. split; [discriminate|intros [H _]; discriminate].
    + destruct (Backend_call _ _ _ _ _ p). cbn.
      split; [discriminate|intros [_ H]; discriminate].
  - unfold call. destruct (heap p !! a) as [[b|]|]; cbn; tauto.
Qed.

Lemma run_BACKEND env dflt ops :
  forall p,
    singleton_inv p -> one_object p ->
    one_object (run env dflt ops p)
    /\ (BACKEND (run env dflt ops p) = None
        <-> BACKEND p = None /\ existsb is_create ops = false).
Proof.
  unfold run. induction ops as [|o ops IH]; intros p Hs Ho; cbn.
  - tauto.
  - destruct (IH (step env dflt o p) (step_inv env dflt o p Hs)
                (step_one_object env dflt o p Hs Ho)) as (H1 & H2).
    split; [exact H1|]. rewrite H2, step_BACKEND, orb_false_iff. tauto.
Qed.

(** X9.  [get_backend] raises [ValueError] as long as the process has not
    called [create_backend], also when it has constructed a [Backend]
    itself; once [create_backend] has been called it returns the one
    object that exists, which is initialised. *)
Theorem get_backend_needs_create_backend env dflt v ops :
  let p := run env dflt ops (start_of_process v) in
  if existsb is_create ops
  then get_backend p = Ok 0%nat
       /\ instance p = Some 0%nat
       /\ exists b, heap p = [Some b]
  else get_backend p = Raise (ValueError "Backend not created").
Proof.
  intros p.
  assert (Hs : singleton_inv p) by apply run_inv, start_inv.
  destruct (run_BACKEND env dflt ops (start_of_process v) (start_inv v))
    as (Ho & Hb); [left; reflexivity|].
  fold p in Ho, Hb. unfold get_backend.
  destruct (existsb is_create ops).
  - destruct (BACKEND p) as [a|] eqn:E;
      [|destruct (proj1 Hb eq_refl); discriminate].
    unfold singleton_inv in Hs. destruct (instance p) as [i|].
    + destruct Hs as (-> & Hl & [Hn | Hn]); [congruence|].
      rewrite E in Hn. inversion Hn; subst a. repeat split.
      destruct Ho as [Ho | Ho]; [rewrite Ho in Hl; discriminate | exact Ho].
    + destruct Hs as (_ & Hn). congruence.
  - rewrite (proj2 Hb (conj eq_refl eq_refl)). reflexivity.
Qed.

End SessionFacts.

(* ===================================================================== *)
(** * The window of a table *)
(* ===================================================================== *)

Module TableMore.

Import Py PyNum Charting Frames Sessions BackendFacts DispatchFacts WireFacts
  TableFacts.

Local Open Scope Z_scope.

(** [int(min(f, c))] never exceeds the integer [c]. *)
Lemma int_of_min_le f c t :
  py_int (py_min (Float f) (Int c)) = Ok t -> t <= c.
Proof.
  destruct (float_trunc f) as [t0|e] eqn:E.
  - rewrite (int_of_min _ _ _ E). intros H. inversion H. lia.
  - unfold py_min, lt, int_lt_float, py_int. unfold float_trunc in E.
    destruct (Prim2SF f) as [s|s| |s m e'] eqn:P; try discriminate.
    + destruct s; cbn.
      * unfold float_trunc. rewrite P. discriminate.
      * intros H. inversion H. lia.
    + cbn. unfold float_trunc. rewrite P. discriminate.
Qed.

(** X10.  Whatever the table holds, a width that [send_table] computes lies
    between 800 and the larger of 800 and [WIDTH + 100]. *)
Theorem table_width_between_floor_and_cap df W :
  match table_width df W with
  | Ok w => 800 <= w <= Z.max 800 (W + 100)
  | Raise _ => True
  end.
Proof.
  unfold table_width. destruct (inflated (columnwidth df)) as [l|e]; [|exact I].
  unfold window_width.
  destruct (py_int _) as [t|e] eqn:E; [|exact I].
  apply int_of_min_le in E. lia.
Qed.

Lemma table_width_of_pixels df W :
  Forall (fun x => x <= max_chars) (columnwidth df) ->
  (List.length (columnwidth df) <= 100)%nat ->
  let l := columnwidth df in
  let S := list_sum (List.map (fun x => x + spread_of l / 5) l) in
  exists P,
    97 * S / 10 - 1 <= P <= 97 * S / 10
    /\ table_width df W = Ok (Z.max (Z.min P (W + 100)) 800).
Proof.
  intros Hmax Hlen l S.
  assert (Hl : Forall (fun x => 0 <= x <= max_chars) l).
  { pose proof (columnwidth_nonneg df) as Hn. fold l in Hn, Hmax.
    rewrite Forall_forall in *. intros x Hx. split; auto. }
  pose proof (inflated_exact l Hl) as Hinf.
  pose proof (spread_of_bounds max_chars l ltac:(unfold max_chars; lia) Hl)
    as Hsp.
  assert (HS : 0 <= S <= max_sum).
  { pose proof (list_sum_bounds 600
                  (List.map (fun x => x + spread_of l / 5) l)) as Hb.
    rewrite List.length_map in Hb. fold S in Hb. fold l in Hlen.
    unfold max_sum. unfold max_chars in *.
    assert (0 <= S <= 600 * Z.of_nat (List.length l)); [|lia].
    apply Hb. apply Forall_map. eapply Forall_impl; [exact Hl|].
    cbn. intros x Hx.
    pose proof (Z.div_pos (spread_of l) 5 ltac:(lia) ltac:(lia)).
    pose proof (Z.div_le_upper_bound (spread_of l) 5 100 ltac:(lia) ltac:(lia)).
    lia. }
  destruct (pixels_exact S HS) as (P & HP & Hb).
  exists P. split; [exact Hb|].
  unfold table_width. fold l. rewrite Hinf. now apply window_width_eq.
Qed.

(** X11.  For a table of at most 100 columns of at most 500 characters, with
    [S] the sum of the raised column widths: up to 82 characters the
    window is 800 pixels wide; from [97 * S >= 10 * (WIDTH + 101)] on
    it is [WIDTH + 100] pixels wide, or 800 if that is less. *)
Theorem table_width_floor_and_cap df W :
  Forall (fun x => x <= max_chars) (columnwidth df) ->
  (List.length (columnwidth df) <= 100)%nat ->
  let l := columnwidth df in
  let S := list_sum (List.map (fun x => x + spread_of l / 5) l) in
  (S <= 82 -> table_width df W = Ok 800)
  /\ (10 * (W + 101) <= 97 * S ->
      table_width df W = Ok (Z.max (W + 100) 800)).
Proof.
  intros Hmax Hlen l S.
  destruct (table_width_of_pixels df W Hmax Hlen) as (P & HP & ->).
  fold l in HP. fold S in HP. split; intros H; f_equal.
  - assert (97 * S / 10 < 796)
      by (apply Z.div_lt_upper_bound; lia).
    lia.
  - assert (W + 101 <= 97 * S / 10)
      by (apply Z.div_le_lower_bound; lia).
    lia.
Qed.

(** The table of two narrow columns gets the narrowest window. *)
Lemma table_width_floor_and_cap_sample :
  Forall (fun x => x <= max_chars) (columnwidth small_table)
  /\ (List.length (columnwidth small_table) <= 100)%nat
  /\ table_width small_table 1400 = Ok 800.
Proof.
  assert (H1 : Forall (fun x => x <= max_chars) (columnwidth small_table))
    by (repeat constructor; discriminate).
  assert (H2 : (List.length (columnwidth small_table) <= 100)%nat)
    by (cbn; lia).
  split; [exact H1|]. split; [exact H2|].
  apply (proj1 (table_width_floor_and_cap small_table 1400 H1 H2)).
  discriminate.
Defined.

Lemma lookup_table_message env b v df title source theme cmd width :
  let msg := table_message env b v df title source theme cmd width in
  msg !! "width" = Some (VInt width)
  /\ msg !! "height"
     = Some (VInt (or_int (plot_pywry_height (charting_settings b)) 762 - 100)).
Proof.
  unfold table_message, table_outgoing, update. split.
  - rewrite lookup_union_r by reflexivity.
    rewrite lookup_insert_ne by discriminate.
    rewrite lookup_insert_ne by discriminate.
    apply lookup_insert_eq.
  - rewrite lookup_union_r by reflexivity.
    rewrite lookup_insert_ne by discriminate.
    rewrite lookup_insert_ne by discriminate.
    rewrite lookup_insert_ne by discriminate.
    apply lookup_singleton_eq.
Qed.

(** X12.  [send_table] caps the width of the window by the [WIDTH] that the
    instance held when the call began, and only then reads the width
    and the height of the settings into the instance: the height of
    the window is the height of the settings (762 by default) less
    100, and the instance leaves the call with the dimensions of the
    settings.  A call that raises enqueues nothing. *)
Theorem send_table_window_size env df title source theme cmd st :
  let cs := charting_settings (self st) in
  let '(r, st') := send_table env df title source theme cmd st in
  match r with
  | Ok _ =>
      WIDTH (self st') = or_int (plot_pywry_width cs) 1400
      /\ HEIGHT (self st') = or_int (plot_pywry_height cs) 762
      /\ exists msg width,
           enqueued st st' = [msg]
           /\ table_width df (WIDTH (self st)) = Ok width
           /\ msg !! "width" = Some (VInt width)
           /\ msg !! "height"
              = Some (VInt (or_int (plot_pywry_height cs) 762 - 100))
  | Raise _ => enqueued st st' = []
  end.
Proof.
  intros cs. unfold send_table. unfold bind at 1.
  pose proof (check_backend_self env st) as Hself.
  destruct (check_backend env st) as [[x|e] st1]; cbn [fst snd] in *.
  2:{ apply enqueued_same. destruct Hself as [E|E]; now rewrite E. }
  unfold bind at 1. unfold get_self at 1. cbn [self].
  assert (HW : WIDTH (self st1) = WIDTH (self st))
    by (destruct Hself as [E|E]; now rewrite E).
  assert (Ho1 : outgoing (self st1) = outgoing (self st))
    by (destruct Hself as [E|E]; now rewrite E).
  assert (Ht1 : table_html (self st1) = table_html (self st))
    by (destruct Hself as [E|E]; now rewrite E).
  assert (Hc1 : charting_settings (self st1) = charting_settings (self st))
    by (destruct Hself as [E|E]; now rewrite E).
  assert (Hid : identifies (self st1) = identifies (self st))
    by (destruct Hself as [E|E]; now rewrite E).
  rewrite HW. destruct (table_width df (WIDTH (self st))) as [width|e] eqn:Ew.
  2:{ cbn. now apply enqueued_same. }
  unfold bind at 1. rewrite get_json_update_eq.
  destruct (flagged_fields st1) as (Hl & Ho & Hc & _ & Ht & Hv).
  destruct (PyWry_version st1) as [v|] eqn:Ev.
  2:{ cbn. apply enqueued_same. now rewrite Ho, Ho1. }
  unfold bind at 1. unfold get_table_html. run_m.
  rewrite Ht, Ht1.
  destruct (path_exists env (table_html (self st))) eqn:Ex.
  2:{ cbn. apply enqueued_same. cbn. now rewrite Ho, Ho1. }
  rewrite get_kwargs_eq. run_m.
  rewrite ?Ho, ?Hc, ?Ho1, ?Ht, ?Ht1, ?Hc1.
  split; [reflexivity|]. split; [reflexivity|].
  exists (table_message env (self st) v df title source theme cmd width),
    width.
  split; [|split; [reflexivity | apply lookup_table_message]].
  apply enqueued_one. cbn. rewrite ?Ho, ?Ho1.
  unfold table_message. rewrite ?Hid. reflexivity.
Qed.

End TableMore.

(* ===================================================================== *)
(** * How [send_figure] ends, and what it puts into the message *)
(* ===================================================================== *)

Module FigureMore.

Import Py Charting Frames Sessions BackendFacts DispatchFacts WireFacts
  FigureFacts.





(** The title after a second pass of [send_figure]. *)
Lemma touch_figure_twice fig :
  layout_height (touch_figure (touch_figure fig)) = (layout_height fig + 138)%Z
  /\ layout_title_text (touch_figure (touch_figure fig))
     = Some (if PyStr.truthy (new_title fig) then new_title fig
             else default_title).
Proof.
  unfold touch_figure. cbn [layout_height layout_title_text]. split; [lia|].
  fold (new_title fig). unfold or_str.
  destruct (PyStr.truthy (new_title fig)); [|reflexivity].
  f_equal. apply ReFacts.strip_tags_fixed, ReFacts.strip_tags_no_tag.
Qed.

(** X14.  A figure object that is sent twice grows twice: [send_figure]
    changes the object it is given, so the second message carries the
    height of the figure plus 138.  The title loses its tags in the
    first call and stays as it is in the second, unless nothing was
    left of it: then the second call puts the default title. *)
Theorem send_figure_twice_grows_twice
    env appears1 ex1 cmd1 appears2 ex2 cmd2 fig st :
  let '(r1, fig1, st1) := send_figure env appears1 fig ex1 cmd1 st in
  let '(r2, fig2, st2) := send_figure env appears2 fig1 ex2 cmd2 st1 in
  match r1, r2 with
  | Ok _, Ok _ =>
      layout_height fig2 = (layout_height fig + 138)%Z
      /\ layout_title_text fig2
         = Some (if PyStr.truthy (new_title fig) then new_title fig
                 else default_title)
      /\ exists m1 m2,
           outgoing (self st2) = (outgoing (self st) ++ [m1; m2])%list
           /\ payload_height m1 = Some (VInt (layout_height fig + 69))
           /\ payload_height m2 = Some (VInt (layout_height fig + 138))
  | _, _ => True
  end.
Proof.
  pose proof (send_figure_spec env appears1 fig ex1 cmd1 st) as H1.
  destruct (send_figure env appears1 fig ex1 cmd1 st) as [[r1 fig1] st1].
  pose proof (send_figure_spec env appears2 fig1 ex2 cmd2 st1) as H2.
  destruct (send_figure env appears2 fig1 ex2 cmd2 st1) as [[r2 fig2] st2].
  destruct r1 as [u1|e1]; [|exact I]. destruct r2 as [u2|e2]; [|exact I].
  cbv zeta in H1, H2.
  destruct (fst (check_backend env st)); [|destruct H1; discriminate].
  destruct (fst (check_backend env st1)); [|destruct H2; discriminate].
  destruct H1 as (-> & _ & H1). destruct H2 as (-> & _ & H2).
  destruct (PyWry_version (snd (check_backend env st))) as [v1|];
    [|destruct H1 as (_ & []) ].
  destruct (path_exists env (plotly_html (self st)));
    [|destruct H1 as (_ & []) ].
  destruct (PyWry_version (snd (check_backend env st1))) as [v2|];
    [|destruct H2 as (_ & []) ].
  destruct (path_exists env (plotly_html (self st1)));
    [|destruct H2 as (_ & []) ].
  destruct H1 as (Ho1 & _). destruct H2 as (Ho2 & _).
  destruct (touch_figure_twice fig) as (Hh & Ht).
  split; [exact Hh|]. split; [exact Ht|].
  do 2 eexists. split; [rewrite Ho2, Ho1, <- app_assoc; reflexivity|].
  rewrite !payload_height_figure. split; [reflexivity|]. now rewrite Hh.
Qed.

Lemma paper_bgcolor_of_figure_message env b v fig ex cmd :
  payload_layout "paper_bgcolor" (figure_message env b v fig ex cmd)
  = Some (VStr (paper_bg_of (charting_settings b))).
Proof.
  unfold payload_layout. cbn [get_path].
  rewrite figure_message_body, figure_json_data_layout.
  now rewrite lookup_insert_eq.
Qed.

Lemma other_layout_of_figure_message env b v fig ex cmd k :
  k <> "paper_bgcolor" -> k <> "title" -> k <> "height" ->
  payload_layout k (figure_message env b v fig ex cmd)
  = layout_other fig !! k.
Proof.
  intros H1 H2 H3. unfold payload_layout. cbn [get_path].
  rewrite figure_message_body, figure_json_data_layout.
  rewrite lookup_insert_ne by congruence.
  unfold layout_to_json.
  destruct (layout_title_text fig);
    rewrite ?lookup_insert_ne by congruence;
    now destruct (layout_other fig !! k).
Qed.

Lemma data_of_figure_message env b v fig ex cmd :
  get_path ["json_data"; "data"] (VDict (figure_message env b v fig ex cmd))
  = Some (data fig).
Proof.
  cbn [get_path]. rewrite figure_message_body.
  unfold figure_json_data.
  assert (H : update (to_json fig)
                (json_update (charting_settings b)
                   (posthog_record (charting_settings b) (identifies b))
                   None cmd v) !! "layout"
              = Some (VDict (layout_to_json fig))).
  { unfold update. rewrite lookup_union_r by reflexivity.
    unfold to_json. apply lookup_insert_eq. }
  rewrite H. rewrite lookup_insert_ne by discriminate.
  unfold update. rewrite lookup_union_r by reflexivity.
  unfold to_json. rewrite lookup_insert_ne by discriminate.
  now rewrite lookup_singleton_eq.
Qed.

(** X15.  In every message of [send_figure] the background colour of the
    paper is the transparent black of the dark style or the
    transparent white of any other style, whatever the figure had
    there; the traces of the figure and every other property of its
    layout, the title and the height apart, travel as they are. *)
Theorem send_figure_sets_only_the_paper_colour env appears fig ex cmd st :
  let '(r, fig', st') := send_figure env appears fig ex cmd st in
  Forall (fun msg =>
            payload_layout "paper_bgcolor" msg
            = Some (VStr (if String.eqb (chart_style (charting_settings (self st)))
                                        "dark"
                          then "rgba(0,0,0,0)" else "rgba(255,255,255,0)"))
            /\ get_path ["json_data"; "data"] (VDict msg) = Some (data fig)
            /\ forall k,
                 k <> "paper_bgcolor" -> k <> "title" -> k <> "height" ->
                 payload_layout k msg = layout_other fig !! k)
         (enqueued st st')
  /\ data fig' = data fig
  /\ layout_other fig' = layout_other fig.
Proof.
  pose proof (send_figure_spec env appears fig ex cmd st) as H.
  destruct (send_figure env appears fig ex cmd st) as [[r fig'] st'].
  cbv zeta in H.
  destruct (fst (check_backend env st)) as [x|e].
  - destruct H as (-> & _ & H). split; [|split; reflexivity].
    destruct (PyWry_version (snd (check_backend env st))) as [v|];
      [destruct (path_exists env (plotly_html (self st)))|].
    + destruct H as (Ho & _). rewrite (enqueued_one _ _ _ Ho).
      constructor; [|constructor]. split; [|split].
      * apply paper_bgcolor_of_figure_message.
      * exact (data_of_figure_message env _ v (touch_figure fig) ex cmd).
      * intros k H1 H2 H3.
        exact (other_layout_of_figure_message env _ v (touch_figure fig)
                 ex cmd k H1 H2 H3).
    + destruct H as (Ho & _). rewrite (enqueued_same _ _ Ho). constructor.
    + destruct H as (Ho & _). rewrite (enqueued_same _ _ Ho). constructor.
  - destruct H as (_ & -> & Ho & _). rewrite (enqueued_same _ _ Ho).
    split; [constructor | split; reflexivity].
Qed.

End FigureMore.

(* ===================================================================== *)
(** * The title of a table *)
(* ===================================================================== *)

Module TitleFacts.

Import Py Re Charting Frames Sessions BackendFacts DispatchFacts WireFacts
  ReFacts TelemetryFacts.

(** Dropping characters makes no tag: what the scan leaves of a string
    without a tag has no tag either, whatever the pattern. *)
Lemma has_tag_sub_scan_any f s :
  has_tag s = false -> forall skip, has_tag (sub_scan f s skip) = false.
Proof.
  induction s as [|c s IH]; intros H skip; [reflexivity|].
  cbn [has_tag] in H. apply orb_false_iff in H as [H1 H2].
  cbn [sub_scan]. destruct skip as [|k]; [|now apply IH].
  assert (Hk : has_tag (String c (sub_scan f s 0)) = false).
  { cbn [has_tag]. rewrite (IH H2 0%nat), orb_false_r.
    destruct (Ascii.eqb c lt_sign); [|reflexivity].
    destruct (index_of gt_sign s) eqn:E; [discriminate|].
    now rewrite (index_of_sub_scan f gt_sign s E 0). }
  destruct (f (String c s)) as [[|n]|]; auto.
Qed.

Lemma sub_scan_length f s :
  forall skip, (String.length (sub_scan f s skip) <= String.length s)%nat.
Proof.
  induction s as [|c s IH]; intros skip; [cbn; lia|].
  cbn [sub_scan]. destruct skip as [|k].
  - destruct (f (String c s)) as [[|n]|]; cbn [String.length];
      try (specialize (IH 0%nat); lia).
    specialize (IH n). lia.
  - specialize (IH k). cbn [String.length]. lia.
Qed.

Lemma match_bracket_tag_other c s :
  Ascii.eqb c lbracket = false -> match_bracket_tag (String c s) = None.
Proof. unfold match_bracket_tag. now intros ->. Qed.

(** A string without an opening bracket holds no bracket tag. *)
Lemma sub_scan_no_bracket s :
  index_of lbracket s = None -> sub_scan match_bracket_tag s 0 = s.
Proof.
  induction s as [|c s IH]; intros H; [reflexivity|].
  cbn [index_of] in H. destruct (Ascii.eqb c lbracket) eqn:E; [discriminate|].
  assert (Hs : index_of lbracket s = None)
    by (destruct (index_of lbracket s); congruence).
  cbn [sub_scan]. rewrite (match_bracket_tag_other c s E), (IH Hs).
  reflexivity.
Qed.

Lemma span_len_name name c b :
  PyStr.all_chars PyStr.is_lower name = true ->
  PyStr.is_lower c = false ->
  span_len PyStr.is_lower (name ++ String c b) = String.length name.
Proof.
  intros Hn Hc. induction name as [|d name IH];
    rewrite ?append_nil, ?append_cons; cbn [span_len String.length].
  - now rewrite Hc.
  - cbn [PyStr.all_chars] in Hn. apply andb_true_iff in Hn as [H1 H2].
    now rewrite H1, (IH H2).
Qed.

Lemma get_after_name name c b :
  String.get (String.length name) (name ++ String c b) = Some c.
Proof.
  induction name as [|d name IH]; rewrite ?append_nil, ?append_cons;
    cbn [String.length String.get]; [reflexivity | exact IH].
Qed.

(** The match of an opening tag [[name]] and of a closing tag
    [[/name]] at the head of a string. *)
Lemma match_bracket_tag_open d name b :
  PyStr.all_chars PyStr.is_lower (String d name) = true ->
  match_bracket_tag (String lbracket (String d name ++ String rbracket b))
  = Some (S (S (String.length (String d name)))).
Proof.
  intros Hn. unfold match_bracket_tag. rewrite Ascii.eqb_refl.
  assert (Hd : Ascii.eqb d slash = false).
  { cbn [PyStr.all_chars] in Hn. apply andb_true_iff in Hn as [H1 _].
    destruct (Ascii.eqb_spec d slash) as [->|]; [discriminate | reflexivity]. }
  rewrite append_cons, Hd. rewrite <- append_cons. cbv beta iota zeta.
  rewrite (span_len_name _ rbracket b Hn eq_refl).
  pose proof (get_after_name (String d name) rbracket b) as G.
  cbn [String.length] in *. rewrite G. now rewrite Ascii.eqb_refl.
Qed.

Lemma match_bracket_tag_close d name b :
  PyStr.all_chars PyStr.is_lower (String d name) = true ->
  match_bracket_tag
    (String lbracket (String slash (String d name ++ String rbracket b)))
  = Some (S (S (S (String.length (String d name))))).
Proof.
  intros Hn. unfold match_bracket_tag. rewrite !Ascii.eqb_refl.
  cbv beta iota zeta.
  rewrite (span_len_name _ rbracket b Hn eq_refl).
  pose proof (get_after_name (String d name) rbracket b) as G.
  cbn [String.length] in *. rewrite G. now rewrite Ascii.eqb_refl.
Qed.

Lemma sub_scan_prefix f a s :
  (forall c r, f (String c r) <> None -> Ascii.eqb c lbracket = true) ->
  index_of lbracket a = None ->
  sub_scan f (a ++ s) 0 = a ++ sub_scan f s 0.
Proof.
  intros Hf. induction a as [|c a IH]; intros Ha;
    rewrite ?append_nil, ?append_cons; [reflexivity|].
  cbn [index_of] in Ha. destruct (Ascii.eqb c lbracket) eqn:E; [discriminate|].
  cbn [sub_scan].
  destruct (f (String c (a ++ s))) as [n|] eqn:Ef.
  - assert (Ascii.eqb c lbracket = true) by (apply (Hf c (a ++ s)); congruence).
    congruence.
  - rewrite IH; [reflexivity|]. destruct (index_of lbracket a); congruence.
Qed.

Lemma match_bracket_tag_head c r :
  match_bracket_tag (String c r) <> None -> Ascii.eqb c lbracket = true.
Proof.
  unfold match_bracket_tag. destruct (Ascii.eqb c lbracket); congruence.
Qed.

(** The leftmost tag in brackets goes, opening or closing; what stands
    before it stays. *)
Lemma strip_bracket_tags_leftmost a name b :
  index_of lbracket a = None ->
  PyStr.truthy name = true ->
  PyStr.all_chars PyStr.is_lower name = true ->
  strip_bracket_tags (a ++ String lbracket (name ++ String rbracket b))
  = a ++ strip_bracket_tags b
  /\ strip_bracket_tags
       (a ++ String lbracket (String slash (name ++ String rbracket b)))
     = a ++ strip_bracket_tags b.
Proof.
  intros Ha Ht Hn. destruct name as [|d name]; [discriminate|].
  unfold strip_bracket_tags, sub_empty.
  rewrite !(sub_scan_prefix _ a _ match_bracket_tag_head Ha). split; f_equal.
  - cbn [sub_scan]. rewrite (match_bracket_tag_open d name b Hn).
    apply sub_scan_skip.
  - cbn [sub_scan]. rewrite (match_bracket_tag_close d name b Hn).
    apply sub_scan_skip.
Qed.

Lemma body_title_of_table df title source upd :
  upd !! "title" = None ->
  table_json_data df title source upd !! "title" = Some (VStr title).
Proof.
  intros H. unfold table_json_data, update.
  apply lookup_union_Some_l. rewrite lookup_union_r by exact H.
  apply lookup_insert_eq.
Qed.

(** X16.  [send_table] puts the cleaned title into the body of its message.
    The cleaned title holds no [<...>] and is no longer than the title
    given; a title without [<] and without an opening bracket is left
    as it is; after the HTML tags the leftmost tag in brackets goes,
    opening or closing.  The theme of the body is the one given, or
    dark: the chart style of the settings is not consulted. *)
Theorem send_table_cleans_title env df title source theme cmd st :
  (let '(r, st') := send_table env df title source theme cmd st in
   Forall (fun msg =>
             exists d,
               body_of msg = Some d
               /\ d !! "title" = Some (VStr (clean_title title))
               /\ d !! "theme" = Some (VStr (or_str theme "dark")))
          (enqueued st st'))
  /\ has_tag (clean_title title) = false
  /\ (String.length (clean_title title) <= String.length title)%nat
  /\ (index_of lt_sign title = None ->
      index_of lbracket title = None ->
      clean_title title = title)
  /\ (forall a name b,
        has_tag (a ++ String lbracket (name ++ String rbracket b)) = false ->
        index_of lbracket a = None ->
        PyStr.truthy name = true ->
        PyStr.all_chars PyStr.is_lower name = true ->
        clean_title (a ++ String lbracket (name ++ String rbracket b))
        = a ++ strip_bracket_tags b).
Proof.
  split; [|split; [|split; [|split]]].
  - pose proof (send_table_spec env df title source theme cmd st) as H.
    destruct (send_table env df title source theme cmd st) as [r st'].
    cbv zeta in H.
    assert (Hnone : enqueued st st' = [] ->
                    Forall (fun msg =>
                      exists d,
                        body_of msg = Some d
                        /\ d !! "title" = Some (VStr (clean_title title))
                        /\ d !! "theme" = Some (VStr (or_str theme "dark")))
                      (enqueued st st'))
      by (intros ->; constructor).
    destruct (fst (check_backend env st)) as [x|e];
      [|destruct H as (_ & Ho & _); now apply Hnone, enqueued_same].
    destruct (table_width df (WIDTH (self st))) as [width|e];
      [|destruct H as (_ & Ho & _); now apply Hnone, enqueued_same].
    destruct H as (_ & H).
    destruct (PyWry_version (snd (check_backend env st))) as [v|];
      [|destruct H as (Ho & _); now apply Hnone, enqueued_same].
    destruct (path_exists env (table_html (self st)));
      [|destruct H as (Ho & _); now apply Hnone, enqueued_same].
    destruct H as (Ho & _). rewrite (enqueued_one _ _ _ Ho).
    constructor; [|constructor]. eexists.
    split; [apply body_of_table_message|]. split.
    + now apply body_title_of_table.
    + unfold table_json_data, update.
      apply lookup_union_Some_l, lookup_union_Some_l.
      unfold json_update. rewrite lookup_insert_eq.
      unfold or_str. destruct theme as [t|]; [|reflexivity].
      destruct (PyStr.truthy t) eqn:E; [now rewrite E | reflexivity].
  - unfold clean_title. destruct (PyStr.truthy title) eqn:E.
    + apply has_tag_sub_scan_any, strip_tags_no_tag.
    + destruct title; [reflexivity | discriminate].
  - unfold clean_title. destruct (PyStr.truthy title); [|lia].
    unfold strip_bracket_tags, strip_tags, sub_empty.
    pose proof (sub_scan_length match_bracket_tag
                  (sub_scan match_tag title 0) 0).
    pose proof (sub_scan_length match_tag title 0). lia.
  - intros H1 H2. unfold clean_title. destruct (PyStr.truthy title); [|reflexivity].
    assert (Hs : strip_tags title = title).
    { unfold strip_tags, sub_empty. clear H2.
      induction title as [|c s IH]; [reflexivity|].
      cbn [index_of] in H1.
      destruct (Ascii.eqb c lt_sign) eqn:E; [discriminate|].
      cbn [sub_scan]. rewrite match_tag_cons, E, IH; [reflexivity|].
      destruct (index_of lt_sign s); congruence. }
    rewrite Hs. now apply sub_scan_no_bracket.
  - intros a name b Hg Ha Ht Hn. unfold clean_title.
    rewrite (strip_tags_fixed _ Hg).
    destruct (strip_bracket_tags_leftmost a name b Ha Ht Hn) as (-> & _).
    destruct a; rewrite ?append_nil, ?append_cons; reflexivity.
Qed.

End TitleFacts.

(* ===================================================================== *)
(** * Validation of a financial-ratios query, again *)
(* ===================================================================== *)

Module FinancialRatiosMore.

Import PyStr PyStrFacts FinancialRatios FinancialRatiosFacts Frames.






End FinancialRatiosMore.

(* ===================================================================== *)
(** * The download of plotly.js *)
(* ===================================================================== *)

Module PlotlyJsFacts.

Import Py PlotlyJs Sessions ReFacts.

Lemma append_empty_r (s : string) : s ++ EmptyString = s.
Proof.
  induction s as [|c s IH]; rewrite ?append_nil, ?append_cons;
    [reflexivity | now rewrite IH].
Qed.

Lemma append_assoc_str (a b c : string) : (a ++ b) ++ c = a ++ (b ++ c).
Proof.
  induction a as [|x a IH]; rewrite ?append_nil, ?append_cons;
    [reflexivity | now rewrite IH].
Qed.

(** What is written when no read fails: the chunks before the first
    empty one. *)
Lemma write_chunks_ok cs :
  forall written,
    write_chunks (List.map Ok cs) written
    = (Ok tt, written ++ body_of_chunks cs).
Proof.
  induction cs as [|c cs IH]; intros written; cbn [List.map write_chunks
    body_of_chunks].
  - now rewrite append_empty_r.
  - destruct (PyStr.truthy c).
    + now rewrite IH, append_assoc_str.
    + now rewrite append_empty_r.
Qed.

Lemma lookup_kept (files : gmap string string) name :
  filter (fun kv => kept kv.1 = true) files !! name
  = if kept name then files !! name else None.
Proof.
  destruct (kept name) eqn:E.
  - destruct (files !! name) as [x|] eqn:L.
    + apply map_lookup_filter_Some. split; [exact L | exact E].
    + apply map_lookup_filter_None. left. exact L.
  - apply map_lookup_filter_None. right. intros x _. cbn. congruence.
Qed.

(** X18.  A download that meets no error: plotly.js holds the chunks that
    were read, in order, up to the first empty one; every other file
    of the assets folder whose name matches [plotly*.js] is gone;
    every other file is as it was; nothing is warned. *)
Theorem download_replaces_old_versions net d chunks :
  request net = Ok tt ->
  open_file net = Ok tt ->
  reads net = List.map Ok chunks ->
  let d' := download_plotly_js net d in
  assets d' !! js_filename = Some (body_of_chunks chunks)
  /\ (forall name,
        name <> js_filename ->
        assets d' !! name
        = if matches_plotly_js name then None else assets d !! name)
  /\ warnings d' = warnings d.
Proof.
  intros Hr Ho Hc d'. unfold d', download_plotly_js.
  rewrite Hr, Ho, Hc, write_chunks_ok, append_nil. cbn [assets warnings].
  split; [|split; [|reflexivity]].
  - rewrite lookup_kept.
    replace (kept js_filename) with true by reflexivity.
    apply lookup_insert_eq.
  - intros name Hn. rewrite lookup_kept.
    rewrite lookup_insert_ne by congruence.
    unfold kept. apply String.eqb_neq in Hn. rewrite Hn, orb_false_r.
    now destruct (matches_plotly_js name).
Qed.

(** The older plotly.js goes, the icon stays, the new file holds the
    two chunks. *)
Lemma download_replaces_old_versions_sample :
  let d' := download_plotly_js two_chunks old_assets in
  assets d' !! js_filename = Some "abcdef"
  /\ assets d' !! "plotly-2.18.0.min.js" = None
  /\ assets d' !! "Terminal_icon.png" = Some "png".
Proof.
  destruct (download_replaces_old_versions two_chunks old_assets
              ["abc"; "def"; EmptyString] eq_refl eq_refl eq_refl)
    as (H1 & H2 & _).
  split; [exact H1|]. split.
  - exact (H2 "plotly-2.18.0.min.js" ltac:(discriminate)).
  - exact (H2 "Terminal_icon.png" ltac:(discriminate)).
Defined.


End PlotlyJsFacts.
